(** * Ticket inventory ledger of the event booking backend

    A shallow embedding of the three route handlers of
    [src/routes/registrationRoutes.js] that touch ticket inventory
    (POST /api/registrations, PUT /api/registrations/:id/payment,
    PUT /api/registrations/:id/cancel), of the event edit route
    PUT /api/events/:id of the event routes, and of the two mongoose schemas
    they work on ([models/Event.js] and the registration model).  The other
    routes that read or write the two collections (view, creation, deletion
    and analytics of an event, reading and listing of registrations, the
    admin dashboard counters and the approval of events) are embedded in
    the section on the other routes.

    Modelling conventions.
    - The two mongoose collections are finite maps from document ids to
      documents.  A handler first loads a document into a local value,
      changes the local value, and [save]s it back, exactly as the
      JavaScript does; nothing reaches the collection before [save].
    - A JavaScript [Number] is modelled as an integer of [Z].  The model
      therefore speaks about integer prices and quantities (amounts counted
      in the smallest currency unit) inside the range where double
      arithmetic is exact.  What the two revenue updates do on arbitrary
      doubles is given by [revenue_commit] and [revenue_release], on the
      binary64 numbers of the kernel.
    - [return res.status(..).json(..)] ends a handler with a reply; an
      exception is caught by the handler's [try/catch] and ends it with
      status 500.  Both are the [Done] outcome of the handler monad.
    - Every write to the database may fail; which writes fail is given by a
      [Faults] record, [no_faults] being the run in which every write
      succeeds. *)

From Stdlib Require Import ZArith String List Lia.
From Stdlib Require Import PrimFloat.
From stdpp Require Import gmap strings list fin_maps.

Set Warnings "-inexact-float".

Local Open Scope Z_scope.

(** ** Data model *)

(** [ticketTypeSchema] of models/Event.js. *)
Module TicketType.
Record t := mk {
  name : string;
  price : Z;
  quantity : Z;
  sold : Z
}.
End TicketType.

(** The [analytics] sub-document of [eventSchema]. *)
Module Analytics.
Record t := mk {
  views : Z;
  totalTicketsSold : Z;
  totalRevenue : Z
}.
End Analytics.

(** [eventSchema], projected on the fields the ledger reads or writes. *)
Module Event.
Record t := mk {
  organizer : N;
  ticketTypes : list TicketType.t;
  attendees : list N;
  analytics : Analytics.t
}.
End Event.

(** [ticketSchema] of the registration model: one purchased line. *)
Module Ticket.
Record t := mk {
  ticketType : string;
  price : Z;
  quantity : Z
}.
End Ticket.

Inductive PaymentStatus := pending | completed | failed | refunded.
Inductive Status := active | cancelled | transferred.

(** The payload encoded in the QR code of a registration. *)
Record QrData := mkQr {
  qr_registrationId : N;
  qr_eventId : N;
  qr_userId : N
}.

(** [registrationSchema]. *)
Module Registration.
Record t := mk {
  event : N;
  user : N;
  tickets : list Ticket.t;
  totalAmount : Z;
  paymentStatus : PaymentStatus;
  paymentIntentId : option string;
  transactionId : option string;
  status : Status;
  qrCode : option QrData
}.

Definition set_payment (r : t) (ps : PaymentStatus)
    (intent txn : option string) : t :=
  mk (event r) (user r) (tickets r) (totalAmount r) ps intent txn
     (status r) (qrCode r).

Definition set_status (r : t) (s : Status) : t :=
  mk (event r) (user r) (tickets r) (totalAmount r) (paymentStatus r)
     (paymentIntentId r) (transactionId r) s (qrCode r).

Definition set_qrCode (r : t) (q : QrData) : t :=
  mk (event r) (user r) (tickets r) (totalAmount r) (paymentStatus r)
     (paymentIntentId r) (transactionId r) (status r) (Some q).
End Registration.

(** The database: the [events] and the [registrations] collection. *)
Record DB := mkDB {
  events : gmap N Event.t;
  registrations : gmap N Registration.t
}.

(** Which database writes fail in a run. *)
Record Faults := mkFaults {
  registration_create_fails : bool;
  registration_save_fails : bool;
  event_save_fails : bool
}.

Definition no_faults : Faults := mkFaults false false false.

(** ** Replies *)

(** The replies of the handlers.  The spec's error kinds are the 400
    replies: [InvalidTicketType] is its UnknownTicketType,
    [NotEnoughTickets] its InsufficientInventory, [AlreadyCancelled] its
    AlreadyCancelled. *)
Inductive Reply :=
| Created (id : N) (r : Registration.t)   (* 201, the registration *)
| OkRegistration (r : Registration.t)     (* 200, the registration *)
| OkCancelled                             (* 200, 'Registration cancelled successfully' *)
| OkEvent (e : option Event.t)            (* 200, the updated event *)
| EventNotFound                           (* 404 *)
| RegistrationNotFound                    (* 404 *)
| NotAuthorized                           (* 403 *)
| InvalidTicketType (n : string)          (* 400, 'Invalid ticket type: n' *)
| NotEnoughTickets (n : string)           (* 400, 'Not enough tickets available for n' *)
| AlreadyCancelled                        (* 400, 'Registration already cancelled' *)
| ServerError.                            (* 500, from the catch block *)

(** ** The handler monad: database state and early reply *)

Inductive Outcome (A : Type) :=
| Next (a : A)
| Done (r : Reply).
Arguments Next {A} a.
Arguments Done {A} r.

Definition Handler (A : Type) : Type := DB -> DB * Outcome A.

Definition ret {A} (a : A) : Handler A := fun db => (db, Next a).

Definition bind {A B} (m : Handler A) (k : A -> Handler B) : Handler B :=
  fun db =>
    match m db with
    | (db', Next a) => k a db'
    | (db', Done r) => (db', Done r)
    end.

Definition respond {A} (r : Reply) : Handler A := fun db => (db, Done r).

Notation "'let*' x ':=' m 'in' k" := (bind m (fun x => k))
  (at level 10, x name, m at level 100, k at level 200, only parsing).
Notation "m ';;' k" := (bind m (fun _ => k))
  (at level 100, k at level 200, right associativity, only parsing).

(** A handler run to its reply. *)
Definition run (h : Handler Reply) (db : DB) : DB * Reply :=
  match h db with
  | (db', Next r) => (db', r)
  | (db', Done r) => (db', r)
  end.

(** *** Database primitives *)

Definition Event_findById (id : N) : Handler (option Event.t) :=
  fun db => (db, Next (events db !! id)).

Definition Registration_findById (id : N) : Handler (option Registration.t) :=
  fun db => (db, Next (registrations db !! id)).

Definition event_save (f : Faults) (id : N) (e : Event.t) : Handler unit :=
  fun db =>
    if event_save_fails f then (db, Done ServerError)
    else (mkDB (<[id := e]> (events db)) (registrations db), Next tt).

Definition registration_save (f : Faults) (id : N) (r : Registration.t)
    : Handler unit :=
  fun db =>
    if registration_save_fails f then (db, Done ServerError)
    else (mkDB (events db) (<[id := r]> (registrations db)), Next tt).

(** The validators of the registration model that can reject a document
    built by the creation route: every line needs [quantity >= 1]. *)
Definition registration_valid (r : Registration.t) : bool :=
  forallb (fun t => 1 <=? Ticket.quantity t) (Registration.tickets r).

(** [Registration.create]: validate, pick an unused id, insert. *)
Definition Registration_create (f : Faults) (r : Registration.t)
    : Handler N :=
  fun db =>
    if negb (registration_valid r) then (db, Done ServerError)
    else if registration_create_fails f then (db, Done ServerError)
    else
      let id := fresh (dom (registrations db)) in
      (mkDB (events db) (<[id := r]> (registrations db)), Next id).

(** ** Ledger arithmetic shared by the routes *)

(** [event.ticketTypes.find(tt => tt.name === n)]: the first tier of that
    name. *)
Definition find_tier (n : string) (tts : list TicketType.t)
    : option TicketType.t :=
  List.find (fun tier => String.eqb (TicketType.name tier) n) tts.

(** [const ticketType = find(..); if (ticketType) ticketType.sold += d]:
    the first tier named [n] has [d] added to its [sold], in place; with no
    such tier nothing changes. *)
Fixpoint add_sold (n : string) (d : Z) (tts : list TicketType.t)
    : list TicketType.t :=
  match tts with
  | [] => []
  | tier :: rest =>
      if String.eqb (TicketType.name tier) n
      then TicketType.mk (TicketType.name tier) (TicketType.price tier)
             (TicketType.quantity tier) (TicketType.sold tier + d) :: rest
      else tier :: add_sold n d rest
  end.

(** [registration.tickets.reduce((sum, t) => sum + t.quantity, 0)]. *)
Definition totalTickets (ts : list Ticket.t) : Z :=
  fold_left (fun sum t => sum + Ticket.quantity t) ts 0.

(** The loop [for (const ticket of registration.tickets)] of the payment
    route ([sign = 1]) and of the cancel route ([sign = -1]). *)
Definition update_sold (sign : Z) (ts : list Ticket.t)
    (tts : list TicketType.t) : list TicketType.t :=
  fold_left
    (fun acc t => add_sold (Ticket.ticketType t) (sign * Ticket.quantity t) acc)
    ts tts.

(** The sum of [sold] over the tiers of an event. *)
Definition sum_sold (tts : list TicketType.t) : Z :=
  fold_right (fun tier acc => TicketType.sold tier + acc) 0 tts.

(** [Σ price × quantity] over the lines of a registration. *)
Definition lines_total (ts : list Ticket.t) : Z :=
  fold_right (fun t acc => Ticket.price t * Ticket.quantity t + acc) 0 ts.

(** ** Requests *)

(** [req.user], as set by the [protect] middleware. *)
Record AuthUser := mkUser {
  id : N;
  role : string
}.

(** One element of [req.body.tickets] of POST /api/registrations. *)
Module LineRequest.
Record t := mk {
  ticketType : string;
  quantity : Z
}.
End LineRequest.

Record CreateRequest := mkCreate {
  create_user : AuthUser;
  eventId : N;
  tickets : list LineRequest.t
}.

Record PaymentRequest := mkPayment {
  payment_user : AuthUser;
  payment_id : N;                       (* req.params.id *)
  paymentIntentId : option string;
  transactionId : option string
}.

Record CancelRequest := mkCancel {
  cancel_user : AuthUser;
  cancel_id : N                         (* req.params.id *)
}.

(** PUT /api/events/:id: [req.body] projected on the tier list. *)
Record EventUpdateRequest := mkEventUpdate {
  update_user : AuthUser;
  update_id : N;                        (* req.params.id *)
  body_ticketTypes : option (list TicketType.t)
}.

(** ** POST /api/registrations (reserve and price) *)

(** The loop that validates availability and accumulates [totalAmount]. *)
Fixpoint price_tickets (event : Event.t) (tickets : list LineRequest.t)
    (totalAmount : Z) : Handler Z :=
  match tickets with
  | [] => ret totalAmount
  | ticket :: rest =>
      match find_tier (LineRequest.ticketType ticket) (Event.ticketTypes event) with
      | None => respond (InvalidTicketType (LineRequest.ticketType ticket))
      | Some ticketType =>
          if TicketType.quantity ticketType - TicketType.sold ticketType
               <? LineRequest.quantity ticket
          then respond (NotEnoughTickets (LineRequest.ticketType ticket))
          else price_tickets event rest
                 (totalAmount + TicketType.price ticketType * LineRequest.quantity ticket)
      end
  end.

(** One element of [tickets.map(t => ({ticketType, price: find(..).price,
    quantity}))]; reading [.price] of [undefined] throws. *)
Definition snapshot_line (event : Event.t) (t : LineRequest.t)
    : Handler Ticket.t :=
  match find_tier (LineRequest.ticketType t) (Event.ticketTypes event) with
  | Some ticketType =>
      ret (Ticket.mk (LineRequest.ticketType t) (TicketType.price ticketType)
             (LineRequest.quantity t))
  | None => respond ServerError
  end.

Fixpoint map_handler {A B} (g : A -> Handler B) (l : list A)
    : Handler (list B) :=
  match l with
  | [] => ret []
  | a :: rest =>
      let* b := g a in
      let* bs := map_handler g rest in
      ret (b :: bs)
  end.

Definition post_registrations (f : Faults) (req : CreateRequest)
    : Handler Reply :=
  let* event := Event_findById (eventId req) in
  match event with
  | None => respond EventNotFound
  | Some event =>
      let* totalAmount := price_tickets event (tickets req) 0 in
      let* lines := map_handler (snapshot_line event) (tickets req) in
      let* _id :=
        Registration_create f
          (Registration.mk (eventId req) (id (create_user req)) lines
             totalAmount pending None None active None) in
      let registration :=
        Registration.mk (eventId req) (id (create_user req)) lines
          totalAmount pending None None active
          (Some (mkQr _id (eventId req) (id (create_user req)))) in
      registration_save f _id registration ;;
      ret (Created _id registration)
  end.

(** *** The creation route in closed form *)

(** A requested line passes the two checks of the loop. *)
Definition line_ok (event : Event.t) (l : LineRequest.t) : bool :=
  match find_tier (LineRequest.ticketType l) (Event.ticketTypes event) with
  | None => false
  | Some tier =>
      negb (TicketType.quantity tier - TicketType.sold tier
              <? LineRequest.quantity l)
  end.

(** The reply the loop gives for a line that does not pass. *)
Definition line_error (event : Event.t) (l : LineRequest.t) : Reply :=
  match find_tier (LineRequest.ticketType l) (Event.ticketTypes event) with
  | None => InvalidTicketType (LineRequest.ticketType l)
  | Some _ => NotEnoughTickets (LineRequest.ticketType l)
  end.

(** The first requested line that does not pass, if any. *)
Definition first_bad (event : Event.t) (ls : list LineRequest.t)
    : option LineRequest.t :=
  List.find (fun l => negb (line_ok event l)) ls.

(** The price of the tier a line names, at the time of the request. *)
Definition line_price (event : Event.t) (l : LineRequest.t) : Z :=
  match find_tier (LineRequest.ticketType l) (Event.ticketTypes event) with
  | Some tier => TicketType.price tier
  | None => 0
  end.

Definition snapshot (event : Event.t) (l : LineRequest.t) : Ticket.t :=
  Ticket.mk (LineRequest.ticketType l) (line_price event l)
    (LineRequest.quantity l).

(** The document the creation route hands to [Registration.create]. *)
Definition new_registration (req : CreateRequest) (event : Event.t)
    : Registration.t :=
  Registration.mk (eventId req) (id (create_user req))
    (map (snapshot event) (tickets req))
    (lines_total (map (snapshot event) (tickets req)))
    pending None None active None.

(** ** PUT /api/registrations/:id/payment (commit) *)


(** The changes the payment route makes to the loaded event before it
    saves it, for integer amounts: the sums are exact here.  For amounts
    that are not integers the revenue line is [revenue_commit]. *)
Definition commit_event (_id : N) (registration : Registration.t)
    (event : Event.t) : Event.t :=
  Event.mk (Event.organizer event)
    (update_sold 1 (Registration.tickets registration) (Event.ticketTypes event))
    (Event.attendees event ++ [_id])
    (Analytics.mk (Analytics.views (Event.analytics event))
       (Analytics.totalTicketsSold (Event.analytics event)
        + totalTickets (Registration.tickets registration))
       (Analytics.totalRevenue (Event.analytics event)
        + Registration.totalAmount registration)).

Definition put_registration_payment (f : Faults) (req : PaymentRequest)
    : Handler Reply :=
  let* registration := Registration_findById (payment_id req) in
  match registration with
  | None => respond RegistrationNotFound
  | Some registration =>
      if negb (N.eqb (Registration.user registration) (id (payment_user req)))
      then respond NotAuthorized
      else
        let registration :=
          Registration.set_payment registration completed
            (paymentIntentId req) (transactionId req) in
        registration_save f (payment_id req) registration ;;
        let* event := Event_findById (Registration.event registration) in
        match event with
        | None => respond ServerError      (* event.analytics of null *)
        | Some event =>
            event_save f (Registration.event registration)
              (commit_event (payment_id req) registration event) ;;
            ret (OkRegistration registration)
        end
  end.

(** ** PUT /api/registrations/:id/cancel (release) *)


(** The changes the cancel route makes to the loaded event before it saves
    it, for integer amounts: the differences are exact here.  For amounts
    that are not integers the revenue line is [revenue_release]. *)
Definition release_event (_id : N) (registration : Registration.t)
    (event : Event.t) : Event.t :=
  Event.mk (Event.organizer event)
    (update_sold (-1) (Registration.tickets registration) (Event.ticketTypes event))
    (List.filter (fun a => negb (N.eqb a _id)) (Event.attendees event))
    (Analytics.mk (Analytics.views (Event.analytics event))
       (Analytics.totalTicketsSold (Event.analytics event)
        - totalTickets (Registration.tickets registration))
       (Analytics.totalRevenue (Event.analytics event)
        - Registration.totalAmount registration)).

Definition is_cancelled (s : Status) : bool :=
  match s with cancelled => true | _ => false end.

Definition put_registration_cancel (f : Faults) (req : CancelRequest)
    : Handler Reply :=
  let* registration := Registration_findById (cancel_id req) in
  match registration with
  | None => respond RegistrationNotFound
  | Some registration =>
      if negb (N.eqb (Registration.user registration) (id (cancel_user req)))
      then respond NotAuthorized
      else if is_cancelled (Registration.status registration)
      then respond AlreadyCancelled
      else
        let registration := Registration.set_status registration cancelled in
        registration_save f (cancel_id req) registration ;;
        let* event := Event_findById (Registration.event registration) in
        match event with
        | None => respond ServerError      (* event.analytics of null *)
        | Some event =>
            event_save f (Registration.event registration)
              (release_event (cancel_id req) registration event) ;;
            ret OkCancelled
        end
  end.

(** ** PUT /api/events/:id (edit of an event by its organizer) *)

(** The validators of [ticketTypeSchema] on the tier list: [name] is
    required, which the empty string does not meet; [price] and [quantity]
    have [min: 0]; [sold] has no validator. *)
Definition ticketTypes_valid (tts : list TicketType.t) : bool :=
  forallb (fun tier => negb (String.eqb (TicketType.name tier) "")
                       && (0 <=? TicketType.price tier)
                       && (0 <=? TicketType.quantity tier)) tts.

(** [Event.findByIdAndUpdate(id, req.body, {new: true, runValidators: true})]. *)
Definition Event_findByIdAndUpdate (f : Faults) (id : N)
    (body : option (list TicketType.t)) : Handler (option Event.t) :=
  fun db =>
    match body with
    | None => (db, Next (events db !! id))
    | Some tts =>
        if negb (ticketTypes_valid tts) then (db, Done ServerError)
        else if event_save_fails f then (db, Done ServerError)
        else
          match events db !! id with
          | None => (db, Next None)
          | Some event =>
              let event :=
                Event.mk (Event.organizer event) tts (Event.attendees event)
                  (Event.analytics event) in
              (mkDB (<[id := event]> (events db)) (registrations db),
               Next (Some event))
          end
    end.

Definition put_event (f : Faults) (req : EventUpdateRequest)
    : Handler Reply :=
  let* event := Event_findById (update_id req) in
  match event with
  | None => respond EventNotFound
  | Some event =>
      if negb (N.eqb (Event.organizer event) (id (update_user req)))
         && negb (String.eqb (role (update_user req)) "admin")
      then respond NotAuthorized
      else
        let* event :=
          Event_findByIdAndUpdate f (update_id req) (body_ticketTypes req) in
        ret (OkEvent event)
  end.

(** ** Sequences of requests *)

Inductive Op :=
| Reserve (req : CreateRequest)
| Commit (req : PaymentRequest)
| Release (req : CancelRequest)
| EditEvent (req : EventUpdateRequest).

Definition step (f : Faults) (op : Op) (db : DB) : DB * Reply :=
  match op with
  | Reserve req => run (post_registrations f req) db
  | Commit req => run (put_registration_payment f req) db
  | Release req => run (put_registration_cancel f req) db
  | EditEvent req => run (put_event f req) db
  end.

(** The database after a sequence of requests, every write succeeding. *)
Definition exec (ops : list Op) (db : DB) : DB :=
  fold_left (fun db op => fst (step no_faults op db)) ops db.

(** The replies of a sequence of requests, in order. *)
Fixpoint replies (ops : list Op) (db : DB) : list Reply :=
  match ops with
  | [] => []
  | op :: rest =>
      snd (step no_faults op db) :: replies rest (fst (step no_faults op db))
  end.

(** ** Ledger invariants of the spec *)

(** [0 <= sold <= quantity] for one tier. *)
Definition tier_ok (tier : TicketType.t) : Prop :=
  0 <= TicketType.sold tier <= TicketType.quantity tier.

Definition event_ok (event : Event.t) : Prop :=
  Forall tier_ok (Event.ticketTypes event).

Definition db_ok (db : DB) : Prop :=
  forall id event, events db !! id = Some event -> event_ok event.

(** Two versions of a registration with the same purchased lines and the
    same amount. *)
Definition same_purchase (r r' : Registration.t) : Prop :=
  Registration.tickets r' = Registration.tickets r /\
  Registration.totalAmount r' = Registration.totalAmount r.

(** A stored line carries what was requested and the price its tier had
    on [event]. *)
Definition priced_from (event : Event.t) (l : LineRequest.t) (t : Ticket.t)
    : Prop :=
  Ticket.ticketType t = LineRequest.ticketType l /\
  Ticket.quantity t = LineRequest.quantity l /\
  exists tier,
    find_tier (LineRequest.ticketType l) (Event.ticketTypes event) = Some tier /\
    Ticket.price t = TicketType.price tier.

(** ** The other routes *)

(** The answer of a route that replies with a value of type [A]. *)
Inductive Answer (A : Type) :=
| Json (a : A)                            (* 200 or 201, the value *)
| Status404
| Status403
| Status500.
Arguments Json {A} a.
Arguments Status404 {A}.
Arguments Status403 {A}.
Arguments Status500 {A}.

(** The ownership test of the event routes:
    [event.organizer.toString() !== req.user.id && req.user.role !== 'admin']. *)
Definition not_owner (u : AuthUser) (event : Event.t) : bool :=
  negb (N.eqb (Event.organizer event) (id u))
  && negb (String.eqb (role u) "admin").

(** *** GET /api/events/:id

    The route loads the event, adds one to [analytics.views], saves it and
    replies with it.  The populated organizer and attendees only change
    what the reply shows. *)
Definition get_event (f : Faults) (eid : N) : Handler Reply :=
  let* event := Event_findById eid in
  match event with
  | None => respond EventNotFound
  | Some event =>
      let event :=
        Event.mk (Event.organizer event) (Event.ticketTypes event)
          (Event.attendees event)
          (Analytics.mk (Analytics.views (Event.analytics event) + 1)
             (Analytics.totalTicketsSold (Event.analytics event))
             (Analytics.totalRevenue (Event.analytics event))) in
      event_save f eid event ;;
      ret (OkEvent (Some event))
  end.

(** *** DELETE /api/events/:id *)

(** The value of a successful delete is the message 'Event removed'. *)
Definition delete_event (f : Faults) (u : AuthUser) (eid : N) (db : DB)
    : DB * Answer unit :=
  match events db !! eid with
  | None => (db, Status404)
  | Some event =>
      if not_owner u event then (db, Status403)
      else if event_save_fails f then (db, Status500)
      else (mkDB (delete eid (events db)) (registrations db), Json tt)
  end.

(** *** POST /api/events

    [req.body] projected on the fields of [Event.t].  A tier of the body
    may leave out [sold]; the body may leave out the attendee list and any
    of the analytics counters; the schema defaults fill them in.
    [other_fields_valid] says whether the fields outside the projection
    (title, dates, location, ...) pass their validators. *)
Module TierBody.
Record t := mk {
  name : string;
  price : Z;
  quantity : Z;
  sold : option Z
}.
End TierBody.

Record EventBody := mkEventBody {
  body_organizer : option N;
  body_tiers : list TierBody.t;
  body_attendees : option (list N);
  body_views : option Z;
  body_totalTicketsSold : option Z;
  body_totalRevenue : option Z;
  other_fields_valid : bool
}.

Definition tier_of_body (tb : TierBody.t) : TicketType.t :=
  TicketType.mk (TierBody.name tb) (TierBody.price tb) (TierBody.quantity tb)
    (default 0 (TierBody.sold tb)).

(** [{...req.body, organizer: req.user.id}] with the schema defaults. *)
Definition event_of_body (u : AuthUser) (body : EventBody) : Event.t :=
  Event.mk (id u) (map tier_of_body (body_tiers body))
    (default [] (body_attendees body))
    (Analytics.mk (default 0 (body_views body))
       (default 0 (body_totalTicketsSold body))
       (default 0 (body_totalRevenue body))).

(** The middleware [authorize('organizer', 'admin')] in front of the
    route: only these two roles reach the handler.  The middleware is not
    among the source files; like the ownership tests of the routes, its
    refusal is taken to be status 403. *)
Definition authorize (roles : list string) (u : AuthUser) : bool :=
  existsb (String.eqb (role u)) roles.

(** The event ids that some registration refers to. *)
Definition referenced_events (db : DB) : gset N :=
  list_to_set (map (fun kr => Registration.event kr.2)
                 (map_to_list (registrations db))).

(** A new ObjectId is unlike every id met before.  The database keeps no
    trace of the id of a deleted event except in the registrations that
    refer to it, so the new id is taken outside the stored events and
    outside the events referred to. *)
Definition ids_in_use (db : DB) : gset N :=
  dom (events db) ∪ referenced_events db.

(** [Event.create(eventData)] behind the middleware: validate, pick an
    unused id, insert. *)
Definition post_event (f : Faults) (u : AuthUser) (body : EventBody)
    (db : DB) : DB * Answer (N * Event.t) :=
  if negb (authorize ["organizer"; "admin"]%string u) then (db, Status403)
  else
    let event := event_of_body u body in
    if negb (ticketTypes_valid (Event.ticketTypes event)
             && other_fields_valid body)
    then (db, Status500)
    else if event_save_fails f then (db, Status500)
    else
      let _id := fresh (ids_in_use db) in
      (mkDB (<[_id := event]> (events db)) (registrations db),
       Json (_id, event)).

(** *** GET /api/events/:id/analytics *)

(** One row of [ticketTypeBreakdown]. *)
Module Breakdown.
Record t := mk {
  name : string;
  sold : Z;
  remaining : Z;
  revenue : Z
}.
End Breakdown.

(** The analytics reply without [capacity] and [occupancyRate], which are
    computed from a field outside the projection. *)
Module Report.
Record t := mk {
  totalViews : Z;
  totalTicketsSold : Z;
  totalRevenue : Z;
  attendeeCount : nat;
  ticketTypeBreakdown : list Breakdown.t
}.
End Report.

Definition breakdown (tier : TicketType.t) : Breakdown.t :=
  Breakdown.mk (TicketType.name tier) (TicketType.sold tier)
    (TicketType.quantity tier - TicketType.sold tier)
    (TicketType.sold tier * TicketType.price tier).

(** [.populate('attendees')]: every id is replaced by its registration;
    ids without a registration drop out of the array. *)
Definition populate_attendees (db : DB) (attendees : list N)
    : list Registration.t :=
  omap (fun a => registrations db !! a) attendees.

Definition get_event_analytics (u : AuthUser) (eid : N) (db : DB)
    : Answer Report.t :=
  match events db !! eid with
  | None => Status404
  | Some event =>
      if not_owner u event then Status403
      else
        Json (Report.mk (Analytics.views (Event.analytics event))
                (Analytics.totalTicketsSold (Event.analytics event))
                (Analytics.totalRevenue (Event.analytics event))
                (length (populate_attendees db (Event.attendees event)))
                (map breakdown (Event.ticketTypes event)))
  end.

(** *** GET /api/registrations/:id

    [users] is the set of ids of the users collection: a populated
    reference to a missing document is [null], and reading [._id] of it
    throws. *)
Definition get_registration (users : gset N) (u : AuthUser) (rid : N)
    (db : DB) : Answer Registration.t :=
  match registrations db !! rid with
  | None => Status404
  | Some registration =>
      match events db !! Registration.event registration with
      | None => Status500                  (* registration.event._id of null *)
      | Some event =>
          if negb (bool_decide (Registration.user registration ∈ users))
          then Status500                   (* registration.user._id of null *)
          else if negb (N.eqb (Registration.user registration) (id u))
                  && not_owner u event
          then Status403
          else Json registration
      end
  end.

(** *** GET /api/registrations/event/:eventId

    The completed registrations of an event, as a finite map from id to
    registration; the order of the reply (newest first) is not part of the
    model. *)
Definition is_completed (r : Registration.t) : bool :=
  match Registration.paymentStatus r with completed => true | _ => false end.

Definition listed (eid : N) (r : Registration.t) : bool :=
  N.eqb (Registration.event r) eid && is_completed r.

Definition get_event_registrations (u : AuthUser) (eid : N) (db : DB)
    : Answer (gmap N Registration.t) :=
  match events db !! eid with
  | None => Status404
  | Some event =>
      if not_owner u event then Status403
      else Json (filter (fun kr => listed eid kr.2 = true) (registrations db))
  end.

(** *** GET /api/admin/dashboard

    The counters of the dashboard that are computed from the two modelled
    collections. *)

(** [Event.countDocuments()]. *)
Definition dashboard_totalEvents (db : DB) : nat := size (events db).

(** [Registration.countDocuments({ paymentStatus: 'completed' })]. *)
Definition dashboard_totalRegistrations (db : DB) : Z :=
  map_fold (fun _ r n => if is_completed r then 1 + n else n) 0
    (registrations db).

(** [$match] on completed, [$group] with [$sum: '$totalAmount'], and
    [totalRevenue[0]?.total || 0]. *)
Definition dashboard_totalRevenue (db : DB) : Z :=
  map_fold (fun _ r total =>
              if is_completed r then Registration.totalAmount r + total
              else total) 0
    (registrations db).

(** *** PUT /api/admin/events/:id/approve

    The route reads and writes two fields of the event that the ledger
    never touches; they are modelled as a collection of their own. *)
Module Moderation.
Record t := mk {
  isApproved : bool;
  status : string
}.
End Moderation.

(** The [enum] of [status] in [eventSchema]. *)
Definition event_status_enum : list string :=
  ["draft"; "published"; "cancelled"; "completed"]%string.

Definition event_status_valid (s : string) : bool :=
  existsb (String.eqb s) event_status_enum.

Definition put_admin_event_approve (save_fails : bool) (eid : N)
    (isApproved : bool) (ms : gmap N Moderation.t)
    : gmap N Moderation.t * Answer Moderation.t :=
  match ms !! eid with
  | None => (ms, Status404)
  | Some _ =>
      let event :=
        Moderation.mk isApproved
          (if isApproved then "published" else "pending")%string in
      if negb (event_status_valid (Moderation.status event))
      then (ms, Status500)                 (* ValidationError from save *)
      else if save_fails then (ms, Status500)
      else (<[eid := event]> ms, Json event)
  end.

(** *** All requests that write the two collections *)

Inductive Request :=
| Ledger (op : Op)
| ViewEvent (eid : N)
| DeleteEvent (u : AuthUser) (eid : N)
| CreateEvent (u : AuthUser) (body : EventBody).

(** The database after one request. *)
Definition serve (f : Faults) (rq : Request) (db : DB) : DB :=
  match rq with
  | Ledger op => fst (step f op db)
  | ViewEvent eid => fst (run (get_event f eid) db)
  | DeleteEvent u eid => fst (delete_event f u eid db)
  | CreateEvent u body => fst (post_event f u body db)
  end.

(** The database after a sequence of requests, each with its own write
    failures. *)
Definition serve_all (rqs : list (Faults * Request)) (db : DB) : DB :=
  fold_left (fun db frq => serve frq.1 frq.2 db) rqs db.

(** The part of a tier that only an event edit can change. *)
Definition tier_offer (tier : TicketType.t) : string * Z * Z :=
  (TicketType.name tier, TicketType.price tier, TicketType.quantity tier).


(** What a stored registration keeps, and how its two states may move,
    between an earlier version [r] and a later version [r']. *)
Definition evolves (r r' : Registration.t) : Prop :=
  Registration.user r' = Registration.user r /\
  Registration.event r' = Registration.event r /\
  Registration.tickets r' = Registration.tickets r /\
  Registration.totalAmount r' = Registration.totalAmount r /\
  (Registration.status r' = Registration.status r \/
   Registration.status r' = cancelled) /\
  (Registration.paymentStatus r' = Registration.paymentStatus r \/
   Registration.paymentStatus r' = completed).

(** What the routes establish for every registration they store. *)
Definition registration_wf (r : Registration.t) : Prop :=
  (Registration.paymentStatus r = pending \/
   Registration.paymentStatus r = completed) /\
  (Registration.status r = active \/ Registration.status r = cancelled) /\
  Registration.totalAmount r = lines_total (Registration.tickets r) /\
  Forall (fun t => 1 <= Ticket.quantity t) (Registration.tickets r).

Definition registrations_wf (db : DB) : Prop :=
  forall rid r, registrations db !! rid = Some r -> registration_wf r.

(** The requests that can change what an existing event offers: an edit
    replaces the tier list and a delete removes the event. *)
Definition keeps_offers (rq : Request) : bool :=
  match rq with
  | Ledger (EditEvent _) => false
  | DeleteEvent _ _ => false
  | _ => true
  end.

(** Two versions of an event with the same organizer and the same tiers on
    offer: names, prices and capacities, in the same order. *)
Definition same_offer (e e' : Event.t) : Prop :=
  Event.organizer e' = Event.organizer e /\
  map tier_offer (Event.ticketTypes e') = map tier_offer (Event.ticketTypes e).

(** ** A small scenario used by the examples *)

Definition alice : AuthUser := mkUser 7 "attendee".
Definition bob : AuthUser := mkUser 8 "attendee".
Definition olga : AuthUser := mkUser 9 "organizer".

(** One event, id 1, with one tier of capacity [quantity]. *)
Definition db_one_tier (quantity : Z) : DB :=
  mkDB {[ 1%N := Event.mk 9 [TicketType.mk "General" 50 quantity 0] []
                   (Analytics.mk 0 0 0) ]}
       ∅.

Definition general (q : Z) : list LineRequest.t :=
  [LineRequest.mk "General" q].

(** ** Lemmas on the tier list *)

Section TierList.
Implicit Types (n m : string) (d e : Z) (tts : list TicketType.t)
  (ts : list Ticket.t).

(** Adding to [sold] never renames, adds or removes a tier. *)
Lemma add_sold_names n d tts :
  map TicketType.name (add_sold n d tts) = map TicketType.name tts.
Proof.
  induction tts as [|tier rest IH]; simpl; [reflexivity|].
  destruct (String.eqb (TicketType.name tier) n); simpl; congruence.
Qed.

Lemma find_tier_None_names n tts :
  find_tier n tts = None <->
  Forall (fun x => String.eqb x n = false) (map TicketType.name tts).
Proof.
  unfold find_tier. induction tts as [|tier rest IH]; simpl.
  - split; [constructor | reflexivity].
  - destruct (String.eqb (TicketType.name tier) n) eqn:E.
    + split; [discriminate | intros H; inversion H; congruence].
    + rewrite IH. split; [intros H; constructor; assumption
                         | intros H; inversion H; assumption].
Qed.

(** A name that no tier carries stays absent after any update. *)
Lemma find_tier_None_add_sold n m d tts :
  find_tier n tts = None -> find_tier n (add_sold m d tts) = None.
Proof.
  rewrite !find_tier_None_names, add_sold_names. trivial.
Qed.

(** The [if (ticketType)] guard: with no tier of that name the list is
    left as it is. *)
Lemma add_sold_absent n d tts :
  find_tier n tts = None -> add_sold n d tts = tts.
Proof.
  unfold find_tier. induction tts as [|tier rest IH]; simpl; [reflexivity|].
  destruct (String.eqb (TicketType.name tier) n); [discriminate|].
  intros H. rewrite IH; trivial.
Qed.

(** The update changes the first tier of that name and nothing else. *)
Lemma add_sold_present n d tts tier :
  find_tier n tts = Some tier ->
  find_tier n (add_sold n d tts) =
    Some (TicketType.mk (TicketType.name tier) (TicketType.price tier)
            (TicketType.quantity tier) (TicketType.sold tier + d)).
Proof.
  unfold find_tier. induction tts as [|x rest IH]; simpl; [discriminate|].
  destruct (String.eqb (TicketType.name x) n) eqn:E; simpl.
  - intros [= ->]. simpl. rewrite E. reflexivity.
  - rewrite E. exact IH.
Qed.



Lemma update_sold_cons sign t ts tts :
  update_sold sign (t :: ts) tts =
  update_sold sign ts
    (add_sold (Ticket.ticketType t) (sign * Ticket.quantity t) tts).
Proof. reflexivity. Qed.

Lemma update_sold_app sign ts1 ts2 tts :
  update_sold sign (ts1 ++ ts2) tts =
  update_sold sign ts2 (update_sold sign ts1 tts).
Proof. unfold update_sold. apply fold_left_app. Qed.


Lemma find_tier_None_update_sold sign ts n tts :
  find_tier n tts = None -> find_tier n (update_sold sign ts tts) = None.
Proof.
  revert tts. induction ts as [|t ts IH]; intros tts H; [exact H|].
  rewrite update_sold_cons. apply IH, find_tier_None_add_sold, H.
Qed.


(** A line whose tier is missing contributes nothing to the tier list. *)
Lemma update_sold_skip sign pre t post tts :
  find_tier (Ticket.ticketType t) tts = None ->
  update_sold sign (pre ++ t :: post) tts = update_sold sign (pre ++ post) tts.
Proof.
  intros H. rewrite !update_sold_app, update_sold_cons.
  rewrite add_sold_absent; [reflexivity|].
  apply find_tier_None_update_sold, H.
Qed.

Lemma totalTickets_shift ts a :
  fold_left (fun sum t => sum + Ticket.quantity t) ts a =
  a + totalTickets ts.
Proof.
  unfold totalTickets. revert a.
  induction ts as [|t ts IH]; intros a; simpl; [lia|].
  rewrite (IH (a + _)), (IH (0 + _)). lia.
Qed.

End TierList.

(** ** What the payment and the cancel route do, write by write *)

Section Routes.
Variable f : Faults.

(** The payment route, for a registration of the caller whose event
    exists: first the registration is saved as completed, then the event
    is saved with the counters raised. *)
Lemma payment_run (req : PaymentRequest) (db : DB) r e :
  registrations db !! payment_id req = Some r ->
  Registration.user r = id (payment_user req) ->
  events db !! Registration.event r = Some e ->
  run (put_registration_payment f req) db =
    let r' := Registration.set_payment r completed
                (paymentIntentId req) (transactionId req) in
    if registration_save_fails f then (db, ServerError)
    else if event_save_fails f
    then (mkDB (events db) (<[payment_id req := r']> (registrations db)),
          ServerError)
    else (mkDB (<[Registration.event r :=
                    commit_event (payment_id req) r' e]> (events db))
               (<[payment_id req := r']> (registrations db)),
          OkRegistration r').
Proof.
  intros Hr Hu He.
  unfold run, put_registration_payment, bind, Registration_findById,
    registration_save, Event_findById, event_save, ret, respond.
  rewrite Hr, Hu, N.eqb_refl. simpl.
  destruct (registration_save_fails f); [reflexivity|]. simpl.
  rewrite He.
  destruct (event_save_fails f); reflexivity.
Qed.

(** The cancel route, for a registration of the caller that is not yet
    cancelled and whose event exists. *)
Lemma cancel_run (req : CancelRequest) (db : DB) r e :
  registrations db !! cancel_id req = Some r ->
  Registration.user r = id (cancel_user req) ->
  is_cancelled (Registration.status r) = false ->
  events db !! Registration.event r = Some e ->
  run (put_registration_cancel f req) db =
    let r' := Registration.set_status r cancelled in
    if registration_save_fails f then (db, ServerError)
    else if event_save_fails f
    then (mkDB (events db) (<[cancel_id req := r']> (registrations db)),
          ServerError)
    else (mkDB (<[Registration.event r :=
                    release_event (cancel_id req) r' e]> (events db))
               (<[cancel_id req := r']> (registrations db)),
          OkCancelled).
Proof.
  intros Hr Hu Hs He.
  unfold run, put_registration_cancel, bind, Registration_findById,
    registration_save, Event_findById, event_save, ret, respond.
  rewrite Hr, Hu, N.eqb_refl, Hs. simpl.
  destruct (registration_save_fails f); [reflexivity|]. simpl.
  rewrite He.
  destruct (event_save_fails f); reflexivity.
Qed.

(** The cancel route refuses a registration that is already cancelled and
    writes nothing. *)
Lemma cancel_twice (req : CancelRequest) (db : DB) r :
  registrations db !! cancel_id req = Some r ->
  Registration.user r = id (cancel_user req) ->
  Registration.status r = cancelled ->
  run (put_registration_cancel f req) db = (db, AlreadyCancelled).
Proof.
  intros Hr Hu Hs.
  unfold run, put_registration_cancel, bind, Registration_findById, respond.
  rewrite Hr, Hu, N.eqb_refl, Hs. reflexivity.
Qed.

(** The payment route has no reply of the kind the creation route gives
    for missing inventory, and none for a payment already made. *)
Lemma payment_replies (req : PaymentRequest) (db : DB) :
  let reply := snd (run (put_registration_payment f req) db) in
  reply = RegistrationNotFound \/ reply = NotAuthorized \/
  reply = ServerError \/ exists r, reply = OkRegistration r.
Proof.
  unfold run, put_registration_payment, bind, Registration_findById,
    registration_save, Event_findById, event_save, ret, respond.
  destruct (registrations db !! payment_id req) as [r|]; simpl; [|auto].
  destruct (negb _); simpl; [auto|].
  destruct (registration_save_fails f); simpl; [auto|].
  destruct (events db !! Registration.event r); simpl; [|auto].
  destruct (event_save_fails f); simpl; eauto.
Qed.
End Routes.

(** ** What the creation route does *)

Section Creation.
Variable event : Event.t.

Lemma price_tickets_run ls a db :
  price_tickets event ls a db =
    (db, match first_bad event ls with
         | Some l => Done (line_error event l)
         | None => Next (a + lines_total (map (snapshot event) ls))
         end).
Proof.
  unfold first_bad. revert a.
  induction ls as [|l ls IH]; intros a; cbn [price_tickets find map].
  - unfold ret. cbn. do 2 f_equal. lia.
  - destruct (find_tier (LineRequest.ticketType l) (Event.ticketTypes event))
      as [tier|] eqn:Ef.
    + destruct (_ <? _) eqn:Eq.
      * assert (line_ok event l = false) as ->
          by (unfold line_ok; rewrite Ef, Eq; reflexivity).
        cbn [negb]. unfold line_error. rewrite Ef. reflexivity.
      * assert (line_ok event l = true) as ->
          by (unfold line_ok; rewrite Ef, Eq; reflexivity).
        rewrite IH. cbn [negb]. destruct (find _ ls); [reflexivity|].
        unfold lines_total.
        cbn [fold_right snapshot Ticket.price Ticket.quantity].
        unfold line_price. rewrite Ef. do 2 f_equal. lia.
    + assert (line_ok event l = false) as ->
        by (unfold line_ok; rewrite Ef; reflexivity).
      cbn [negb]. unfold line_error. rewrite Ef. reflexivity.
Qed.

Lemma snapshot_lines_run ls db :
  first_bad event ls = None ->
  map_handler (snapshot_line event) ls db =
    (db, Next (map (snapshot event) ls)).
Proof.
  unfold first_bad.
  induction ls as [|l ls IH]; simpl; [reflexivity|].
  destruct (negb (line_ok event l)) eqn:E; [discriminate|]. intros H.
  unfold bind at 1. unfold snapshot_line at 1, snapshot at 1, line_price.
  unfold line_ok in E.
  destruct (find_tier _ _) as [tier|]; [|discriminate].
  unfold ret at 1, bind. rewrite (IH H). reflexivity.
Qed.

(** A line that follows lines which all pass is the first bad line when
    it does not pass itself. *)
Lemma first_bad_middle pre l post :
  forallb (line_ok event) pre = true -> line_ok event l = false ->
  first_bad event (pre ++ l :: post) = Some l.
Proof.
  unfold first_bad. intros Hpre Hl.
  induction pre as [|p pre IH]; simpl in *.
  - rewrite Hl. reflexivity.
  - apply andb_prop in Hpre as [Hp Hpre]. rewrite Hp. simpl. auto.
Qed.

Lemma first_bad_In ls l :
  In l ls -> line_ok event l = false ->
  exists l0, first_bad event ls = Some l0 /\ In l0 ls /\
             line_ok event l0 = false.
Proof.
  unfold first_bad. intros Hin Hl.
  destruct (find _ ls) as [l0|] eqn:E.
  - apply find_some in E as [? E]. exists l0. repeat split; trivial.
    destruct (line_ok event l0); [discriminate | reflexivity].
  - apply (find_none _ _ E) in Hin. rewrite Hl in Hin. discriminate.
Qed.

Lemma first_bad_None ls :
  first_bad event ls = None -> forallb (line_ok event) ls = true.
Proof.
  unfold first_bad. intros H. apply forallb_forall. intros l Hl.
  apply (find_none _ _ H) in Hl. destruct (line_ok event l); trivial.
  discriminate.
Qed.
(** A line does not pass exactly when its tier is absent or short. *)
Lemma line_ok_false l :
  (find_tier (LineRequest.ticketType l) (Event.ticketTypes event) = None \/
   exists tier,
     find_tier (LineRequest.ticketType l) (Event.ticketTypes event) = Some tier /\
     TicketType.quantity tier - TicketType.sold tier < LineRequest.quantity l) <->
  line_ok event l = false.
Proof.
  unfold line_ok.
  destruct (find_tier _ _) as [tier|]; split.
  - intros [H | (tier' & H & Hlt)]; [discriminate|].
    injection H as <-. apply Z.ltb_lt in Hlt. rewrite Hlt. reflexivity.
  - intros H. right. exists tier. split; [reflexivity|].
    apply Z.ltb_lt. apply negb_false_iff, H.
  - reflexivity.
  - intros _. left. reflexivity.
Qed.
End Creation.

Section CreationRoute.
Variable f : Faults.

(** The creation route, for an event that exists. *)
Lemma creation_run (req : CreateRequest) (db : DB) event :
  events db !! eventId req = Some event ->
  run (post_registrations f req) db =
    match first_bad event (tickets req) with
    | Some l => (db, line_error event l)
    | None =>
        let r0 := new_registration req event in
        let _id := fresh (dom (registrations db)) in
        let r := Registration.set_qrCode r0
                   (mkQr _id (eventId req) (id (create_user req))) in
        if negb (registration_valid r0) then (db, ServerError)
        else if registration_create_fails f then (db, ServerError)
        else if registration_save_fails f
        then (mkDB (events db) (<[_id := r0]> (registrations db)),
              ServerError)
        else (mkDB (events db)
                (<[_id := r]> (<[_id := r0]> (registrations db))),
              Created _id r)
    end.
Proof.
  intros He.
  unfold run, post_registrations, bind at 1, Event_findById.
  rewrite He. unfold bind at 1. rewrite price_tickets_run.
  destruct (first_bad event (tickets req)) as [l|] eqn:Eb; [reflexivity|].
  unfold bind at 1. rewrite (snapshot_lines_run _ _ _ Eb).
  unfold bind at 1, Registration_create. rewrite Z.add_0_l.
  fold (new_registration req event).
  destruct (negb (registration_valid _)); [reflexivity|].
  destruct (registration_create_fails f); [reflexivity|].
  unfold bind, registration_save, ret. simpl.
  destruct (registration_save_fails f); reflexivity.
Qed.

Lemma creation_run_no_event (req : CreateRequest) (db : DB) :
  events db !! eventId req = None ->
  run (post_registrations f req) db = (db, EventNotFound).
Proof.
  intros He. unfold run, post_registrations, bind, Event_findById.
  rewrite He. reflexivity.
Qed.
End CreationRoute.

(** ** Reserve: frame and validation *)

(** C7.  Reserve examines the requested lines in order.  When some
    requested line names no tier of the event, or asks for more than
    [quantity - sold] of its tier, the creation route fails with
    [InvalidTicketType] or [NotEnoughTickets] and leaves the database as it
    was, so no registration is created.  The line the loop stops at, that
    is the line [l] whose predecessors [pre] all pass, decides which: with
    no tier of its name the reply is [InvalidTicketType], with too few
    tickets left it is [NotEnoughTickets]. *)
Theorem reserve_rejects_bad_line (f : Faults) (req : CreateRequest) (db : DB)
    (event : Event.t) (l : LineRequest.t) :
  events db !! eventId req = Some event ->
  In l (tickets req) ->
  (find_tier (LineRequest.ticketType l) (Event.ticketTypes event) = None \/
   exists tier,
     find_tier (LineRequest.ticketType l) (Event.ticketTypes event) = Some tier /\
     TicketType.quantity tier - TicketType.sold tier < LineRequest.quantity l) ->
  let result := run (post_registrations f req) db in
  fst result = db /\
  (exists n, snd result = InvalidTicketType n \/ snd result = NotEnoughTickets n) /\
  forall pre post,
    tickets req = pre ++ l :: post ->
    forallb (line_ok event) pre = true ->
    (find_tier (LineRequest.ticketType l) (Event.ticketTypes event) = None ->
     snd result = InvalidTicketType (LineRequest.ticketType l)) /\
    (forall tier,
       find_tier (LineRequest.ticketType l) (Event.ticketTypes event) = Some tier ->
       TicketType.quantity tier - TicketType.sold tier < LineRequest.quantity l ->
       snd result = NotEnoughTickets (LineRequest.ticketType l)).
Proof.
  intros He Hin Hbad result. subst result.
  apply line_ok_false in Hbad as Hl.
  rewrite (creation_run f req db event He).
  destruct (first_bad_In event _ _ Hin Hl) as (l0 & Hfb & _ & _).
  split; [|split].
  - rewrite Hfb. reflexivity.
  - rewrite Hfb. unfold line_error.
    exists (LineRequest.ticketType l0).
    destruct (find_tier (LineRequest.ticketType l0) (Event.ticketTypes event));
      [right | left]; reflexivity.
  - intros pre post Hts Hpre.
    rewrite Hts, (first_bad_middle event pre l post Hpre Hl).
    unfold line_error. split.
    + intros ->. reflexivity.
    + intros tier -> _. reflexivity.
Qed.

Lemma reserve_rejects_bad_line_witness :
  let db := db_one_tier 10 in
  let req := mkCreate alice 1
               [LineRequest.mk "General" 2; LineRequest.mk "General" 11;
                LineRequest.mk "VIP" 1] in
  let l := LineRequest.mk "General" 11 in
  let result := run (post_registrations no_faults req) db in
  In l (tickets req) /\
  find_tier "General" [TicketType.mk "General" 50 10 0]
    = Some (TicketType.mk "General" 50 10 0) /\
  10 - 0 < 11 /\
  fst result = db /\
  snd result = NotEnoughTickets "General".
Proof.
  intros db req l result.
  assert (He : events db !! eventId req =
               Some (Event.mk 9 [TicketType.mk "General" 50 10 0] []
                       (Analytics.mk 0 0 0))) by (vm_compute; reflexivity).
  assert (Hin : In l (tickets req)) by (simpl; auto).
  assert (Hlt : 10 - 0 < 11) by lia.
  destruct (reserve_rejects_bad_line no_faults req db _ l He Hin
              (or_intror (ex_intro _ (TicketType.mk "General" 50 10 0)
                            (conj eq_refl Hlt))))
    as (Hdb & _ & Hline).
  destruct (Hline [LineRequest.mk "General" 2] [LineRequest.mk "VIP" 1]
              eq_refl eq_refl) as (_ & Hshort).
  split; [exact Hin|]. split; [reflexivity|]. split; [exact Hlt|].
  split; [exact Hdb|].
  exact (Hshort (TicketType.mk "General" 50 10 0) eq_refl Hlt).
Defined.

(** ** Commit followed by release *)





(** ** The two writes of commit and of release *)

(** C5, as stated, fails: when the save of the event fails, the payment
    route has already saved the registration as completed, and the cancel
    route has already saved it as cancelled, while the event keeps its old
    counters. *)
Lemma event_write_failure_splits_commit :
  let f := mkFaults false false true in
  let db := exec [Reserve (mkCreate alice 1 (general 3))] (db_one_tier 10) in
  let commit := run (put_registration_payment f (mkPayment alice 0 None None)) db in
  let release := run (put_registration_cancel f (mkCancel alice 0)) db in
  event_save_fails f = true /\
  snd commit = ServerError /\
  Registration.paymentStatus <$> registrations db !! 0%N = Some pending /\
  Registration.paymentStatus <$> registrations (fst commit) !! 0%N
    = Some completed /\
  events (fst commit) = events db /\
  snd release = ServerError /\
  Registration.status <$> registrations db !! 0%N = Some active /\
  Registration.status <$> registrations (fst release) !! 0%N = Some cancelled /\
  events (fst release) = events db.
Proof. vm_compute. repeat split; reflexivity. Qed.

(** C5, amended.  The payment route and the cancel route write twice, the
    registration first and the event second, and the writes are not one
    unit.  For a registration of the caller whose event exists: when the
    save of the registration fails nothing is written; when it succeeds and
    the save of the event fails, the registration stays saved as completed
    (as cancelled) while the events collection is unchanged, and the reply
    is status 500; only when both succeed are the counters changed.  So the
    event is never written unless the registration was. *)
Theorem registration_written_before_event (f : Faults) (db : DB)
    (u : AuthUser) (rid : N) (intent txn : option string)
    (r : Registration.t) (e : Event.t) :
  registrations db !! rid = Some r ->
  Registration.user r = id u ->
  events db !! Registration.event r = Some e ->
  (let r1 := Registration.set_payment r completed intent txn in
   run (put_registration_payment f (mkPayment u rid intent txn)) db =
     if registration_save_fails f then (db, ServerError)
     else if event_save_fails f
     then (mkDB (events db) (<[rid := r1]> (registrations db)), ServerError)
     else (mkDB (<[Registration.event r := commit_event rid r1 e]> (events db))
                (<[rid := r1]> (registrations db)),
           OkRegistration r1)) /\
  (Registration.status r <> cancelled ->
   let r1 := Registration.set_status r cancelled in
   run (put_registration_cancel f (mkCancel u rid)) db =
     if registration_save_fails f then (db, ServerError)
     else if event_save_fails f
     then (mkDB (events db) (<[rid := r1]> (registrations db)), ServerError)
     else (mkDB (<[Registration.event r := release_event rid r1 e]> (events db))
                (<[rid := r1]> (registrations db)),
           OkCancelled)).
Proof.
  intros Hr Hu He. split.
  - exact (payment_run f (mkPayment u rid intent txn) db r e Hr Hu He).
  - intros Hs.
    apply (cancel_run f (mkCancel u rid) db r e Hr Hu); [|exact He].
    destruct (Registration.status r); [reflexivity | contradiction | reflexivity].
Qed.

Lemma registration_written_before_event_witness :
  let f := mkFaults false false true in
  let db := exec [Reserve (mkCreate alice 1 (general 3))] (db_one_tier 10) in
  let r := Registration.mk 1 7 [Ticket.mk "General" 50 3] 150 pending None
             None active (Some (mkQr 0 1 7)) in
  registrations db !! 0%N = Some r /\
  run (put_registration_payment f (mkPayment alice 0 None None)) db =
    (mkDB (events db)
       (<[0%N := Registration.set_payment r completed None None]>
          (registrations db)),
     ServerError).
Proof.
  intros f db r.
  assert (Hr : registrations db !! 0%N = Some r) by (vm_compute; reflexivity).
  split; [exact Hr|].
  exact (proj1 (registration_written_before_event f db alice 0 None None r
                  (Event.mk 9 [TicketType.mk "General" 50 10 0] []
                     (Analytics.mk 0 0 0))
                  Hr eq_refl ltac:(vm_compute; reflexivity))).
Defined.

(** ** Where the routes leave the ledger of the spec *)

(** C1.  The payment route has no guard for a registration that is already
    completed: a second payment request for the same registration is
    answered with the registration again, and the counters of the event are
    raised a second time. *)
Example second_payment_counts_again :
  let pay := Commit (mkPayment alice 0 None None) in
  let db := exec [Reserve (mkCreate alice 1 (general 3)); pay] (db_one_tier 10) in
  Registration.paymentStatus <$> registrations db !! 0%N = Some completed /\
  events db !! 1%N
    = Some (Event.mk 9 [TicketType.mk "General" 50 10 3] [0%N]
              (Analytics.mk 0 3 150)) /\
  (exists r, snd (step no_faults pay db) = OkRegistration r) /\
  events (fst (step no_faults pay db)) !! 1%N
    = Some (Event.mk 9 [TicketType.mk "General" 50 10 6] [0%N; 0%N]
              (Analytics.mk 0 6 300)).
Proof.
  vm_compute. split; [reflexivity|]. split; [reflexivity|].
  split; [eexists; reflexivity | reflexivity].
Qed.

(** C2.  The cancel route does not look at [paymentStatus]: cancelling a
    registration that was never paid lowers the counters that were never
    raised for it. *)
Example cancel_of_pending_lowers_counters :
  let db := exec [Reserve (mkCreate alice 1 (general 3))] (db_one_tier 10) in
  let release := step no_faults (Release (mkCancel alice 0)) db in
  Registration.paymentStatus <$> registrations db !! 0%N = Some pending /\
  events db !! 1%N
    = Some (Event.mk 9 [TicketType.mk "General" 50 10 0] []
              (Analytics.mk 0 0 0)) /\
  snd release = OkCancelled /\
  Registration.status <$> registrations (fst release) !! 0%N = Some cancelled /\
  events (fst release) !! 1%N
    = Some (Event.mk 9 [TicketType.mk "General" 50 10 (-3)] []
              (Analytics.mk 0 (-3) (-150))).
Proof. vm_compute. repeat split; reflexivity. Qed.

(** C3.  Nothing is held at reservation and the payment route does not
    check availability again: two registrations of three tickets each pass
    the check against a tier of five, and both payments are counted. *)
Example tier_oversold :
  let ops := [Reserve (mkCreate alice 1 (general 3));
              Reserve (mkCreate bob 1 (general 3));
              Commit (mkPayment alice 0 None None);
              Commit (mkPayment bob 1 None None)] in
  db_ok (db_one_tier 5) /\
  events (exec ops (db_one_tier 5)) !! 1%N
    = Some (Event.mk 9 [TicketType.mk "General" 50 5 6] [0%N; 1%N]
              (Analytics.mk 0 6 300)) /\
  ~ db_ok (exec ops (db_one_tier 5)).
Proof.
  intros ops.
  assert (He : events (exec ops (db_one_tier 5)) !! 1%N
               = Some (Event.mk 9 [TicketType.mk "General" 50 5 6] [0%N; 1%N]
                         (Analytics.mk 0 6 300))) by (vm_compute; reflexivity).
  split; [|split; [exact He|]].
  - intros i event Hi. unfold db_one_tier in Hi. simpl in Hi.
    apply lookup_singleton_Some in Hi as [_ <-].
    repeat constructor; simpl; lia.
  - intros Hok. specialize (Hok _ _ He). unfold event_ok in Hok. simpl in Hok.
    apply Forall_cons in Hok as [[_ Hle] _]. simpl in Hle. lia.
Qed.

(** C9.  Two payments for the last ticket of a tier, handled one after the
    other: both are answered with the registration, none with
    [NotEnoughTickets], and the tier ends with [sold = 2] of
    [quantity = 1]. *)
Example last_ticket_sold_twice :
  let db := exec [Reserve (mkCreate alice 1 (general 1));
                  Reserve (mkCreate bob 1 (general 1))] (db_one_tier 1) in
  let first := step no_faults (Commit (mkPayment alice 0 None None)) db in
  let second := step no_faults (Commit (mkPayment bob 1 None None)) (fst first) in
  events db !! 1%N
    = Some (Event.mk 9 [TicketType.mk "General" 50 1 0] []
              (Analytics.mk 0 0 0)) /\
  (exists r, snd first = OkRegistration r) /\
  (exists r, snd second = OkRegistration r) /\
  events (fst second) !! 1%N
    = Some (Event.mk 9 [TicketType.mk "General" 50 1 2] [0%N; 1%N]
              (Analytics.mk 0 2 100)).
Proof.
  vm_compute. split; [reflexivity|].
  split; [eexists; reflexivity|]. split; [eexists; reflexivity | reflexivity].
Qed.

(** ** The amount of a registration *)

Section Purchase.
Variable f : Faults.

Lemma payment_registrations (req : PaymentRequest) (db : DB) :
  registrations (fst (run (put_registration_payment f req) db))
    = registrations db \/
  exists r,
    registrations db !! payment_id req = Some r /\
    registrations (fst (run (put_registration_payment f req) db))
      = <[payment_id req := Registration.set_payment r completed
                              (paymentIntentId req) (transactionId req)]>
          (registrations db).
Proof.
  unfold run, put_registration_payment, bind, Registration_findById,
    registration_save, Event_findById, event_save, ret, respond.
  destruct (registrations db !! payment_id req) as [r|] eqn:Hr; simpl; [|auto].
  destruct (negb _); simpl; [auto|].
  destruct (registration_save_fails f); simpl; [auto|].
  right. exists r. split; [reflexivity|].
  destruct (events db !! Registration.event r); simpl; [|reflexivity].
  destruct (event_save_fails f); reflexivity.
Qed.

Lemma cancel_registrations (req : CancelRequest) (db : DB) :
  registrations (fst (run (put_registration_cancel f req) db))
    = registrations db \/
  exists r,
    registrations db !! cancel_id req = Some r /\
    registrations (fst (run (put_registration_cancel f req) db))
      = <[cancel_id req := Registration.set_status r cancelled]>
          (registrations db).
Proof.
  unfold run, put_registration_cancel, bind, Registration_findById,
    registration_save, Event_findById, event_save, ret, respond.
  destruct (registrations db !! cancel_id req) as [r|] eqn:Hr; simpl; [|auto].
  destruct (negb _); simpl; [auto|].
  destruct (is_cancelled _); simpl; [auto|].
  destruct (registration_save_fails f); simpl; [auto|].
  right. exists r. split; [reflexivity|].
  destruct (events db !! Registration.event r); simpl; [|reflexivity].
  destruct (event_save_fails f); reflexivity.
Qed.

(** The event edit route writes no registration. *)
Lemma edit_registrations (req : EventUpdateRequest) (db : DB) :
  registrations (fst (run (put_event f req) db)) = registrations db.
Proof.
  unfold run, put_event, bind, Event_findById, Event_findByIdAndUpdate,
    ret, respond.
  destruct (events db !! update_id req) as [e|] eqn:He; simpl; [|reflexivity].
  destruct (_ && _); simpl; [reflexivity|].
  destruct (body_ticketTypes req) as [tts|]; simpl; [|reflexivity].
  destruct (negb _); simpl; [reflexivity|].
  destruct (event_save_fails f); simpl; [reflexivity|].
  rewrite He. reflexivity.
Qed.

(** A new registration never takes the id of a stored one. *)
Lemma creation_registrations (req : CreateRequest) (db : DB) rid r :
  registrations db !! rid = Some r ->
  registrations (fst (run (post_registrations f req) db)) !! rid = Some r.
Proof.
  intros Hr.
  assert (Hne : fresh (dom (registrations db)) <> rid).
  { intros <-. apply (is_fresh (dom (registrations db))).
    apply elem_of_dom. eauto. }
  destruct (events db !! eventId req) as [event|] eqn:He.
  - rewrite (creation_run f req db event He).
    destruct (first_bad event (tickets req)); [exact Hr|]. cbv zeta.
    destruct (negb _); [exact Hr|].
    destruct (registration_create_fails f); [exact Hr|].
    destruct (registration_save_fails f); simpl;
      rewrite ?lookup_insert_ne by exact Hne; exact Hr.
  - rewrite (creation_run_no_event f req db He). exact Hr.
Qed.

(** No request changes the lines or the amount of a stored registration. *)
Lemma step_same_purchase (op : Op) (db : DB) rid r :
  registrations db !! rid = Some r ->
  exists r', registrations (fst (step f op db)) !! rid = Some r' /\
             same_purchase r r'.
Proof.
  intros Hr. destruct op as [req|req|req|req]; unfold step.
  - exists r. split; [apply creation_registrations, Hr | split; reflexivity].
  - destruct (payment_registrations req db) as [-> | (r0 & Hr0 & ->)].
    + exists r. split; [exact Hr | split; reflexivity].
    + destruct (decide (payment_id req = rid)) as [<- | Hne].
      * rewrite lookup_insert_eq. eexists. split; [reflexivity|].
        rewrite Hr0 in Hr. injection Hr as ->. split; reflexivity.
      * rewrite lookup_insert_ne by exact Hne.
        exists r. split; [exact Hr | split; reflexivity].
  - destruct (cancel_registrations req db) as [-> | (r0 & Hr0 & ->)].
    + exists r. split; [exact Hr | split; reflexivity].
    + destruct (decide (cancel_id req = rid)) as [<- | Hne].
      * rewrite lookup_insert_eq. eexists. split; [reflexivity|].
        rewrite Hr0 in Hr. injection Hr as ->. split; reflexivity.
      * rewrite lookup_insert_ne by exact Hne.
        exists r. split; [exact Hr | split; reflexivity].
  - rewrite edit_registrations. exists r. split; [exact Hr | split; reflexivity].
Qed.
End Purchase.

Lemma exec_same_purchase (ops : list Op) (db : DB) rid r :
  registrations db !! rid = Some r ->
  exists r', registrations (exec ops db) !! rid = Some r' /\
             same_purchase r r'.
Proof.
  revert db r. induction ops as [|op ops IH]; intros db r Hr.
  - exists r. split; [exact Hr | split; reflexivity].
  - destruct (step_same_purchase no_faults op db rid r Hr) as (r1 & Hr1 & Ht1 & Ha1).
    destruct (IH _ _ Hr1) as (r2 & Hr2 & Ht2 & Ha2).
    exists r2. split; [exact Hr2|]. split; congruence.
Qed.

Lemma snapshot_priced_from (event : Event.t) (ls : list LineRequest.t) :
  first_bad event ls = None ->
  Forall2 (priced_from event) ls (map (snapshot event) ls).
Proof.
  intros H. apply first_bad_None in H.
  induction ls as [|l ls IH]; simpl in *; [constructor|].
  apply andb_prop in H as [Hl Hls]. constructor; [|auto].
  unfold priced_from, snapshot, line_price. simpl.
  unfold line_ok in Hl.
  destruct (find_tier _ _) as [tier|]; [|discriminate]. eauto.
Qed.

(** C8.  A registration the creation route has stored carries as
    [totalAmount] the sum of price times quantity over its lines, each line
    priced with the price its tier had on the event at that moment; and
    after any later sequence of reservations, payments, cancellations and
    event edits (which may change the tier prices) the stored registration
    still has the same lines and the same [totalAmount]. *)
Theorem totalAmount_fixed_at_creation (f : Faults) (req : CreateRequest)
    (db db' : DB) (event : Event.t) (rid : N) (r : Registration.t)
    (ops : list Op) :
  events db !! eventId req = Some event ->
  run (post_registrations f req) db = (db', Created rid r) ->
  registrations db' !! rid = Some r /\
  Registration.totalAmount r = lines_total (Registration.tickets r) /\
  Forall2 (priced_from event) (tickets req) (Registration.tickets r) /\
  exists r', registrations (exec ops db') !! rid = Some r' /\
             Registration.tickets r' = Registration.tickets r /\
             Registration.totalAmount r' = Registration.totalAmount r.
Proof.
  intros He Hrun. rewrite (creation_run f req db event He) in Hrun.
  destruct (first_bad event (tickets req)) as [l|] eqn:Hb.
  { injection Hrun as _ Hreply. unfold line_error in Hreply.
    destruct (find_tier _ _); discriminate. }
  cbv zeta in Hrun.
  destruct (negb _); [discriminate|].
  destruct (registration_create_fails f); [discriminate|].
  destruct (registration_save_fails f); [discriminate|].
  injection Hrun as <- <- <-.
  assert (Hst : registrations
                  (mkDB (events db)
                     (<[fresh (dom (registrations db)) :=
                          Registration.set_qrCode (new_registration req event)
                            (mkQr (fresh (dom (registrations db))) (eventId req)
                               (id (create_user req)))]>
                        (<[fresh (dom (registrations db)) :=
                             new_registration req event]> (registrations db))))
                !! fresh (dom (registrations db))
                = Some (Registration.set_qrCode (new_registration req event)
                          (mkQr (fresh (dom (registrations db))) (eventId req)
                             (id (create_user req)))))
    by apply lookup_insert_eq.
  split; [exact Hst|]. split; [reflexivity|].
  split; [exact (snapshot_priced_from event _ Hb)|].
  exact (exec_same_purchase ops _ _ _ Hst).
Qed.

(** Three tickets bought at 50; the organizer then raises the price to 80
    and the buyer pays: the amount stays 150. *)
Lemma totalAmount_fixed_at_creation_witness :
  let req := mkCreate alice 1 (general 3) in
  let r := Registration.mk 1 7 [Ticket.mk "General" 50 3] 150 pending None
             None active (Some (mkQr 0 1 7)) in
  let ops := [EditEvent (mkEventUpdate olga 1
                           (Some [TicketType.mk "General" 80 10 0]));
              Commit (mkPayment alice 0 None None)] in
  exists db',
    run (post_registrations no_faults req) (db_one_tier 10)
      = (db', Created 0 r) /\
    Registration.totalAmount r = lines_total (Registration.tickets r) /\
    (TicketType.price <$>
       (events (exec ops db') !! 1%N ≫= fun e => find_tier "General" (Event.ticketTypes e)))
      = Some 80 /\
    exists r', registrations (exec ops db') !! 0%N = Some r' /\
               Registration.tickets r' = Registration.tickets r /\
               Registration.totalAmount r' = Registration.totalAmount r.
Proof.
  intros req r ops. eexists.
  assert (Hrun : run (post_registrations no_faults req) (db_one_tier 10)
                 = (fst (run (post_registrations no_faults req) (db_one_tier 10)),
                    Created 0 r)) by (vm_compute; reflexivity).
  split; [exact Hrun|].
  pose proof (totalAmount_fixed_at_creation no_faults req (db_one_tier 10) _
                (Event.mk 9 [TicketType.mk "General" 50 10 0] []
                   (Analytics.mk 0 0 0)) 0 r ops
                ltac:(vm_compute; reflexivity) Hrun) as (_ & Ha & _ & Hlater).
  split; [exact Ha|]. split; [vm_compute; reflexivity|]. exact Hlater.
Defined.

(** ** Lines whose tier is gone *)

(** C10.  When a line [t] of a registration names a tier the event does
    not have, the payment route and the cancel route still answer with
    success; the tier list they save is the one they would have saved had
    the line not been there ([pre ++ post] are the other lines), while
    [totalTicketsSold] moves by the tickets of all lines, [t] included, and
    [totalRevenue] by the whole [totalAmount].  Such a state is reached
    from a fresh event by a reservation, a rename of the tier and the
    payment, after which [totalTicketsSold] is 3 and the [sold] counts sum
    to 0. *)
Theorem missing_tier_line_skipped :
  (forall (db : DB) (u : AuthUser) (rid : N) (intent txn : option string)
          (r : Registration.t) (e : Event.t) (pre post : list Ticket.t)
          (t : Ticket.t),
     registrations db !! rid = Some r ->
     Registration.user r = id u ->
     events db !! Registration.event r = Some e ->
     Registration.tickets r = pre ++ t :: post ->
     find_tier (Ticket.ticketType t) (Event.ticketTypes e) = None ->
     (exists r1 e1,
        step no_faults (Commit (mkPayment u rid intent txn)) db
          = (mkDB (<[Registration.event r := e1]> (events db))
                  (<[rid := r1]> (registrations db)),
             OkRegistration r1) /\
        Event.ticketTypes e1 = update_sold 1 (pre ++ post) (Event.ticketTypes e) /\
        Analytics.totalTicketsSold (Event.analytics e1)
          = Analytics.totalTicketsSold (Event.analytics e)
            + (totalTickets (pre ++ post) + Ticket.quantity t) /\
        Analytics.totalRevenue (Event.analytics e1)
          = Analytics.totalRevenue (Event.analytics e)
            + Registration.totalAmount r) /\
     (Registration.status r <> cancelled ->
      exists r2 e2,
        step no_faults (Release (mkCancel u rid)) db
          = (mkDB (<[Registration.event r := e2]> (events db))
                  (<[rid := r2]> (registrations db)),
             OkCancelled) /\
        Event.ticketTypes e2
          = update_sold (-1) (pre ++ post) (Event.ticketTypes e) /\
        Analytics.totalTicketsSold (Event.analytics e2)
          = Analytics.totalTicketsSold (Event.analytics e)
            - (totalTickets (pre ++ post) + Ticket.quantity t) /\
        Analytics.totalRevenue (Event.analytics e2)
          = Analytics.totalRevenue (Event.analytics e)
            - Registration.totalAmount r)) /\
  (let ops := [Reserve (mkCreate alice 1 (general 3));
               EditEvent (mkEventUpdate olga 1
                            (Some [TicketType.mk "Standard" 50 10 0]));
               Commit (mkPayment alice 0 None None)] in
   exists e r,
     last (replies ops (db_one_tier 10)) = Some (OkRegistration r) /\
     events (exec ops (db_one_tier 10)) !! 1%N = Some e /\
     Analytics.totalTicketsSold (Event.analytics e) = 3 /\
     sum_sold (Event.ticketTypes e) = 0).
Proof.
  split.
  - intros db u rid intent txn r e pre post t Hr Hu He Hts Hmiss.
    assert (Htot : totalTickets (Registration.tickets r)
                   = totalTickets (pre ++ post) + Ticket.quantity t).
    { rewrite Hts. unfold totalTickets.
      rewrite !fold_left_app. simpl.
      rewrite (totalTickets_shift post (_ + _)), (totalTickets_shift post).
      lia. }
    split.
    + unfold step.
      rewrite (payment_run no_faults (mkPayment u rid intent txn) db r e Hr Hu He).
      simpl. do 2 eexists. split; [reflexivity|].
      simpl. rewrite Hts, (update_sold_skip 1 pre t post _ Hmiss), <- Hts, Htot.
      repeat split.
    + intros Hs. unfold step.
      rewrite (cancel_run no_faults (mkCancel u rid) db r e Hr Hu); [| |exact He].
      2: { destruct (Registration.status r);
             [reflexivity | contradiction | reflexivity]. }
      simpl. do 2 eexists. split; [reflexivity|].
      simpl. rewrite Hts, (update_sold_skip (-1) pre t post _ Hmiss), <- Hts, Htot.
      repeat split.
  - vm_compute. do 2 eexists. repeat split; reflexivity.
Qed.

Lemma missing_tier_line_skipped_witness :
  let db := exec [Reserve (mkCreate alice 1 (general 3));
                  EditEvent (mkEventUpdate olga 1
                               (Some [TicketType.mk "Standard" 50 10 0]))]
              (db_one_tier 10) in
  let r := Registration.mk 1 7 [Ticket.mk "General" 50 3] 150 pending None
             None active (Some (mkQr 0 1 7)) in
  let e := Event.mk 9 [TicketType.mk "Standard" 50 10 0] []
             (Analytics.mk 0 0 0) in
  registrations db !! 0%N = Some r /\
  events db !! 1%N = Some e /\
  find_tier "General" (Event.ticketTypes e) = None /\
  exists r1 e1,
    step no_faults (Commit (mkPayment alice 0 None None)) db
      = (mkDB (<[1%N := e1]> (events db)) (<[0%N := r1]> (registrations db)),
         OkRegistration r1) /\
    Event.ticketTypes e1 = [TicketType.mk "Standard" 50 10 0] /\
    Analytics.totalTicketsSold (Event.analytics e1) = 0 + (0 + 3) /\
    Analytics.totalRevenue (Event.analytics e1) = 0 + 150.
Proof.
  intros db r e.
  assert (Hr : registrations db !! 0%N = Some r) by (vm_compute; reflexivity).
  assert (He : events db !! Registration.event r = Some e)
    by (vm_compute; reflexivity).
  split; [exact Hr|]. split; [exact He|]. split; [reflexivity|].
  exact (proj1 (proj1 missing_tier_line_skipped db alice 0%N None None r e
                  [] [] (Ticket.mk "General" 50 3)
                  Hr eq_refl He eq_refl eq_refl)).
Defined.

(** * Further properties of the routes *)

(** ** How stored registrations evolve *)

Lemma evolves_refl (r : Registration.t) : evolves r r.
Proof. unfold evolves. auto 10. Qed.

Lemma evolves_trans (r1 r2 r3 : Registration.t) :
  evolves r1 r2 -> evolves r2 r3 -> evolves r1 r3.
Proof.
  unfold evolves.
  intros (Hu1 & He1 & Ht1 & Ha1 & Hs1 & Hp1) (Hu2 & He2 & Ht2 & Ha2 & Hs2 & Hp2).
  repeat split; try congruence.
  - destruct Hs2 as [Hs2|Hs2]; [rewrite Hs2; exact Hs1 | auto].
  - destruct Hp2 as [Hp2|Hp2]; [rewrite Hp2; exact Hp1 | auto].
Qed.

Lemma view_registrations (f : Faults) (eid : N) (db : DB) :
  registrations (fst (run (get_event f eid) db)) = registrations db.
Proof.
  unfold run, get_event, bind, Event_findById, event_save, ret, respond.
  destruct (events db !! eid); simpl; [|reflexivity].
  destruct (event_save_fails f); reflexivity.
Qed.

Lemma delete_registrations (f : Faults) (u : AuthUser) (eid : N) (db : DB) :
  registrations (fst (delete_event f u eid db)) = registrations db.
Proof.
  unfold delete_event. destruct (events db !! eid); [|reflexivity].
  destruct (not_owner _ _); [reflexivity|].
  destruct (event_save_fails f); reflexivity.
Qed.

Lemma create_event_registrations (f : Faults) (u : AuthUser)
    (body : EventBody) (db : DB) :
  registrations (fst (post_event f u body db)) = registrations db.
Proof.
  unfold post_event. destruct (negb (authorize _ _)); [reflexivity|].
  destruct (negb (_ && _)); [reflexivity|].
  destruct (event_save_fails f); reflexivity.
Qed.

(** One request: a stored registration is still stored afterwards, and only
    its two states may have moved. *)
Lemma serve_evolves (f : Faults) (rq : Request) (db : DB) rid r :
  registrations db !! rid = Some r ->
  exists r', registrations (serve f rq db) !! rid = Some r' /\ evolves r r'.
Proof.
  intros Hr. destruct rq as [[req|req|req|req]|eid|u eid|u body]; simpl.
  - exists r. split; [apply creation_registrations, Hr | apply evolves_refl].
  - destruct (payment_registrations f req db) as [-> | (r0 & Hr0 & ->)].
    + exists r. split; [exact Hr | apply evolves_refl].
    + destruct (decide (payment_id req = rid)) as [<- | Hne].
      * rewrite lookup_insert_eq. eexists. split; [reflexivity|].
        rewrite Hr0 in Hr. injection Hr as ->.
        unfold evolves. simpl. auto 10.
      * rewrite lookup_insert_ne by exact Hne.
        exists r. split; [exact Hr | apply evolves_refl].
  - destruct (cancel_registrations f req db) as [-> | (r0 & Hr0 & ->)].
    + exists r. split; [exact Hr | apply evolves_refl].
    + destruct (decide (cancel_id req = rid)) as [<- | Hne].
      * rewrite lookup_insert_eq. eexists. split; [reflexivity|].
        rewrite Hr0 in Hr. injection Hr as ->.
        unfold evolves. simpl. auto 10.
      * rewrite lookup_insert_ne by exact Hne.
        exists r. split; [exact Hr | apply evolves_refl].
  - rewrite edit_registrations. exists r. split; [exact Hr | apply evolves_refl].
  - rewrite view_registrations. exists r. split; [exact Hr | apply evolves_refl].
  - rewrite delete_registrations. exists r. split; [exact Hr | apply evolves_refl].
  - rewrite create_event_registrations.
    exists r. split; [exact Hr | apply evolves_refl].
Qed.

Lemma serve_all_evolves (rqs : list (Faults * Request)) (db : DB) rid r :
  registrations db !! rid = Some r ->
  exists r', registrations (serve_all rqs db) !! rid = Some r' /\ evolves r r'.
Proof.
  revert db r. induction rqs as [|[f rq] rqs IH]; intros db r Hr.
  - exists r. split; [exact Hr | apply evolves_refl].
  - destruct (serve_evolves f rq db rid r Hr) as (r1 & Hr1 & Hev1).
    destruct (IH _ _ Hr1) as (r2 & Hr2 & Hev2).
    exists r2. split; [exact Hr2 | exact (evolves_trans _ _ _ Hev1 Hev2)].
Qed.

(** X1.  A stored registration is never removed, and its owner, its event,
    its lines and its amount never change, whatever requests follow
    (reservations, payments, cancellations, event edits, views, deletions
    and creations of events) and whichever of their writes fail. *)
Theorem registration_identity_is_permanent (rqs : list (Faults * Request))
    (db : DB) (rid : N) (r : Registration.t) :
  registrations db !! rid = Some r ->
  exists r',
    registrations (serve_all rqs db) !! rid = Some r' /\
    Registration.user r' = Registration.user r /\
    Registration.event r' = Registration.event r /\
    Registration.tickets r' = Registration.tickets r /\
    Registration.totalAmount r' = Registration.totalAmount r.
Proof.
  intros Hr.
  destruct (serve_all_evolves rqs db rid r Hr) as (r' & Hr' & Hu & He & Ht & Ha & _).
  exists r'. auto.
Qed.

Lemma registration_identity_is_permanent_witness :
  let db := exec [Reserve (mkCreate alice 1 (general 3))] (db_one_tier 10) in
  let rqs := [(no_faults, Ledger (Commit (mkPayment alice 0 None None)));
              (mkFaults false false true, Ledger (Release (mkCancel alice 0)));
              (no_faults, DeleteEvent olga 1)] in
  let r := Registration.mk 1 7 [Ticket.mk "General" 50 3] 150 pending None
             None active (Some (mkQr 0 1 7)) in
  registrations db !! 0%N = Some r /\
  exists r',
    registrations (serve_all rqs db) !! 0%N = Some r' /\
    Registration.user r' = 7%N /\
    Registration.event r' = 1%N /\
    Registration.tickets r' = [Ticket.mk "General" 50 3] /\
    Registration.totalAmount r' = 150.
Proof.
  intros db rqs r.
  assert (Hr : registrations db !! 0%N = Some r) by (vm_compute; reflexivity).
  split; [exact Hr|].
  exact (registration_identity_is_permanent rqs db 0 r Hr).
Defined.

(** X2.  Cancelled is final: once a registration is cancelled it stays
    cancelled whatever requests follow, and every later cancel request of
    its owner is refused with [AlreadyCancelled] and writes nothing. *)
Theorem cancelled_is_final (rqs : list (Faults * Request)) (db : DB)
    (rid : N) (r : Registration.t) (f : Faults) (u : AuthUser) :
  registrations db !! rid = Some r ->
  Registration.status r = cancelled ->
  Registration.user r = id u ->
  (exists r', registrations (serve_all rqs db) !! rid = Some r' /\
              Registration.status r' = cancelled) /\
  run (put_registration_cancel f (mkCancel u rid)) (serve_all rqs db)
    = (serve_all rqs db, AlreadyCancelled).
Proof.
  intros Hr Hs Hu.
  destruct (serve_all_evolves rqs db rid r Hr)
    as (r' & Hr' & Hu' & _ & _ & _ & Hs' & _).
  assert (Hc : Registration.status r' = cancelled)
    by (destruct Hs' as [Hs'|Hs']; congruence).
  split; [exists r'; auto|].
  apply (cancel_twice f (mkCancel u rid) _ r' Hr'); [|exact Hc].
  simpl. congruence.
Qed.

Lemma cancelled_is_final_witness :
  let db := exec [Reserve (mkCreate alice 1 (general 3));
                  Release (mkCancel alice 0)] (db_one_tier 10) in
  let rqs := [(no_faults, Ledger (Commit (mkPayment alice 0 None None)));
              (no_faults, ViewEvent 1)] in
  (Registration.status <$> registrations db !! 0%N) = Some cancelled /\
  run (put_registration_cancel no_faults (mkCancel alice 0)) (serve_all rqs db)
    = (serve_all rqs db, AlreadyCancelled).
Proof.
  intros db rqs. split; [vm_compute; reflexivity|].
  refine (proj2 (cancelled_is_final rqs db 0
                   (Registration.mk 1 7 [Ticket.mk "General" 50 3] 150 pending
                      None None cancelled (Some (mkQr 0 1 7)))
                   no_faults alice _ eq_refl eq_refl)).
  vm_compute. reflexivity.
Defined.

(** ** What every stored registration satisfies *)

Lemma evolves_wf (r r' : Registration.t) :
  evolves r r' -> registration_wf r -> registration_wf r'.
Proof.
  unfold evolves, registration_wf.
  intros (_ & _ & Ht & Ha & Hs & Hp) (Wp & Ws & Wa & Wq).
  rewrite Ht, Ha.
  repeat split; trivial.
  - destruct Hp as [->| ->]; auto.
  - destruct Hs as [->| ->]; auto.
Qed.

Lemma valid_quantities (ts : list Ticket.t) :
  forallb (fun t => 1 <=? Ticket.quantity t) ts = true ->
  Forall (fun t => 1 <= Ticket.quantity t) ts.
Proof.
  induction ts as [|t ts IH]; simpl; [constructor|].
  intros H. apply andb_prop in H as [Ht Hts].
  constructor; [apply Z.leb_le, Ht | apply IH, Hts].
Qed.

(** A registration found after a reservation request was either stored
    before, unchanged, or is the new one. *)
Lemma creation_origin (f : Faults) (req : CreateRequest) (db : DB) rid r' :
  registrations (fst (run (post_registrations f req) db)) !! rid = Some r' ->
  registrations db !! rid = Some r' \/
  (registrations db !! rid = None /\
   Registration.paymentStatus r' = pending /\
   Registration.status r' = active /\
   Registration.totalAmount r' = lines_total (Registration.tickets r') /\
   Forall (fun t => 1 <= Ticket.quantity t) (Registration.tickets r')).
Proof.
  destruct (events db !! eventId req) as [event|] eqn:He.
  2: { rewrite (creation_run_no_event f req db He). auto. }
  rewrite (creation_run f req db event He).
  destruct (first_bad event (tickets req)); [auto|]. cbv zeta.
  destruct (negb (registration_valid _)) eqn:Hv; [auto|].
  apply negb_false_iff in Hv.
  destruct (registration_create_fails f); [auto|].
  assert (Hfresh : registrations db !! fresh (dom (registrations db)) = None).
  { apply not_elem_of_dom, is_fresh. }
  destruct (registration_save_fails f); simpl;
    (destruct (decide (fresh (dom (registrations db)) = rid)) as [<- | Hne];
     [ rewrite ?lookup_insert_eq; intros [= <-]; right;
       repeat split; trivial; apply valid_quantities, Hv
     | rewrite ?lookup_insert_ne by exact Hne; auto ]).
Qed.

Lemma serve_wf (f : Faults) (rq : Request) (db : DB) :
  registrations_wf db -> registrations_wf (serve f rq db).
Proof.
  intros Hwf rid r' Hr'.
  destruct (registrations db !! rid) as [r|] eqn:Hr.
  - destruct (serve_evolves f rq db rid r Hr) as (r'' & Hr'' & Hev).
    rewrite Hr'' in Hr'. injection Hr' as <-.
    exact (evolves_wf _ _ Hev (Hwf _ _ Hr)).
  - destruct rq as [[req|req|req|req]|eid|u eid|u body]; simpl in Hr'.
    + destruct (creation_origin f req db rid r' Hr')
        as [Hold | (_ & Hp & Hs & Ha & Hq)]; [congruence|].
      repeat split; auto.
    + destruct (payment_registrations f req db) as [E | (r0 & Hr0 & E)];
        rewrite E in Hr'; [congruence|].
      rewrite lookup_insert_ne in Hr' by congruence. congruence.
    + destruct (cancel_registrations f req db) as [E | (r0 & Hr0 & E)];
        rewrite E in Hr'; [congruence|].
      rewrite lookup_insert_ne in Hr' by congruence. congruence.
    + rewrite edit_registrations in Hr'. congruence.
    + rewrite view_registrations in Hr'. congruence.
    + rewrite delete_registrations in Hr'. congruence.
    + rewrite create_event_registrations in Hr'. congruence.
Qed.

(** X3.  Every registration the routes store has [paymentStatus] pending
    or completed and [status] active or cancelled (no route ever sets
    failed, refunded or transferred), an amount equal to the sum of price
    times quantity over its lines, and at least one ticket on every line;
    this holds after any sequence of requests on a database where it holds,
    the empty one in particular. *)
Theorem stored_registrations_are_wf (rqs : list (Faults * Request)) (db : DB) :
  registrations_wf db -> registrations_wf (serve_all rqs db).
Proof.
  revert db. induction rqs as [|[f rq] rqs IH]; intros db Hwf; [exact Hwf|].
  apply IH, serve_wf, Hwf.
Qed.

Lemma stored_registrations_are_wf_witness :
  let rqs := [(no_faults, Ledger (Reserve (mkCreate alice 1 (general 3))));
              (no_faults, Ledger (Commit (mkPayment alice 0 None None)));
              (no_faults, Ledger (Release (mkCancel alice 0)))] in
  registrations_wf (db_one_tier 10) /\
  registrations_wf (serve_all rqs (db_one_tier 10)).
Proof.
  intros rqs.
  assert (H0 : registrations_wf (db_one_tier 10)).
  { intros rid r Hr. simpl in Hr. rewrite lookup_empty in Hr. discriminate. }
  split; [exact H0|]. exact (stored_registrations_are_wf rqs _ H0).
Defined.

(** ** Refusals of the payment and the cancel route *)

(** X4.  Payment and cancel are for the buyer alone.  For an id without a
    registration both routes reply [RegistrationNotFound]; for a
    registration of another user both reply [NotAuthorized], also to the
    organizer of the event and to an admin; in either case nothing is
    written. *)
Theorem payment_and_cancel_need_the_owner (f : Faults) (db : DB)
    (u : AuthUser) (rid : N) (intent txn : option string) :
  (registrations db !! rid = None ->
   run (put_registration_payment f (mkPayment u rid intent txn)) db
     = (db, RegistrationNotFound) /\
   run (put_registration_cancel f (mkCancel u rid)) db
     = (db, RegistrationNotFound)) /\
  (forall r,
     registrations db !! rid = Some r ->
     Registration.user r <> id u ->
     run (put_registration_payment f (mkPayment u rid intent txn)) db
       = (db, NotAuthorized) /\
     run (put_registration_cancel f (mkCancel u rid)) db
       = (db, NotAuthorized)).
Proof.
  unfold run, put_registration_payment, put_registration_cancel, bind,
    Registration_findById, respond. simpl.
  split.
  - intros ->. split; reflexivity.
  - intros r -> Hu. apply N.eqb_neq in Hu. rewrite Hu. split; reflexivity.
Qed.

Lemma payment_and_cancel_need_the_owner_witness :
  let db := exec [Reserve (mkCreate alice 1 (general 3))] (db_one_tier 10) in
  let admin := mkUser 5 "admin" in
  run (put_registration_payment no_faults (mkPayment olga 0 None None)) db
    = (db, NotAuthorized) /\
  run (put_registration_cancel no_faults (mkCancel admin 0)) db
    = (db, NotAuthorized) /\
  run (put_registration_payment no_faults (mkPayment alice 4 None None)) db
    = (db, RegistrationNotFound).
Proof.
  intros db admin.
  pose (r := Registration.mk 1 7 [Ticket.mk "General" 50 3] 150 pending None
               None active (Some (mkQr 0 1 7))).
  assert (Hr : registrations db !! 0%N = Some r) by (vm_compute; reflexivity).
  assert (Hn : registrations db !! 4%N = None) by (vm_compute; reflexivity).
  split; [|split].
  - apply (proj2 (payment_and_cancel_need_the_owner no_faults db olga 0 None None)
             r Hr). discriminate.
  - apply (proj2 (payment_and_cancel_need_the_owner no_faults db admin 0 None None)
             r Hr). discriminate.
  - apply (proj1 (payment_and_cancel_need_the_owner no_faults db alice 4 None None)
             Hn).
Defined.

(** ** When a reservation is accepted *)

Lemma first_bad_forallb (event : Event.t) (ls : list LineRequest.t) :
  first_bad event ls = None <-> forallb (line_ok event) ls = true.
Proof.
  split; [apply first_bad_None|].
  unfold first_bad. induction ls as [|l ls IH]; simpl; [reflexivity|].
  intros H. apply andb_prop in H as [-> Hls]. simpl. auto.
Qed.

Lemma registration_valid_new (req : CreateRequest) (event : Event.t) :
  registration_valid (new_registration req event)
  = forallb (fun l => 1 <=? LineRequest.quantity l) (tickets req).
Proof.
  unfold registration_valid, new_registration. simpl.
  induction (tickets req) as [|l ls IH]; simpl; [reflexivity|].
  rewrite IH. reflexivity.
Qed.

(** X5.  With every write succeeding, a reservation for an existing event
    is accepted exactly when every requested line, taken by itself, names
    a tier with at least that many tickets left and asks for at least one
    ticket.  The accepted registration is stored under an unused id, is
    pending and active, belongs to the caller and to the requested event,
    carries the QR payload of its own id, and has one priced line per
    requested line.  A request that is not accepted writes nothing,
    whichever writes would fail. *)
Theorem reserve_accepts_exactly (req : CreateRequest) (db : DB)
    (event : Event.t) :
  events db !! eventId req = Some event ->
  let ok := forallb (line_ok event) (tickets req)
            && forallb (fun l => 1 <=? LineRequest.quantity l) (tickets req) in
  let rid := fresh (dom (registrations db)) in
  (ok = true ->
   exists r,
     run (post_registrations no_faults req) db
       = (mkDB (events db) (<[rid := r]> (registrations db)), Created rid r) /\
     registrations db !! rid = None /\
     Registration.user r = id (create_user req) /\
     Registration.event r = eventId req /\
     Registration.paymentStatus r = pending /\
     Registration.status r = active /\
     Registration.qrCode r
       = Some (mkQr rid (eventId req) (id (create_user req))) /\
     Forall2 (priced_from event) (tickets req) (Registration.tickets r)) /\
  (ok = false ->
   forall f,
     fst (run (post_registrations f req) db) = db /\
     forall rid' r, snd (run (post_registrations f req) db) <> Created rid' r).
Proof.
  intros He ok rid. subst ok. split.
  - intros Hok. apply andb_prop in Hok as [Hl Hq].
    apply first_bad_forallb in Hl.
    rewrite (creation_run no_faults req db event He), Hl. cbv zeta.
    rewrite registration_valid_new, Hq. simpl.
    eexists. split; [rewrite insert_insert_eq; reflexivity|].
    split; [apply not_elem_of_dom, is_fresh|].
    repeat split. apply snapshot_priced_from, Hl.
  - intros Hok f. rewrite (creation_run f req db event He).
    destruct (first_bad event (tickets req)) as [l|] eqn:Hl.
    + split; [reflexivity|]. intros rid' r. simpl. unfold line_error.
      destruct (find_tier _ _); discriminate.
    + apply first_bad_forallb in Hl. rewrite Hl in Hok. simpl in Hok.
      cbv zeta. rewrite registration_valid_new, Hok. simpl.
      split; [reflexivity | discriminate].
Qed.

Lemma reserve_accepts_exactly_witness :
  let req := mkCreate alice 1 [LineRequest.mk "General" 6;
                               LineRequest.mk "General" 6] in
  let tier := TicketType.mk "General" 50 10 0 in
  events (db_one_tier 10) !! 1%N = Some (Event.mk 9 [tier] [] (Analytics.mk 0 0 0)) /\
  exists r,
    run (post_registrations no_faults req) (db_one_tier 10)
      = (mkDB (events (db_one_tier 10)) (<[0%N := r]> ∅), Created 0 r) /\
    Registration.paymentStatus r = pending /\
    Forall2 (priced_from (Event.mk 9 [tier] [] (Analytics.mk 0 0 0)))
      (tickets req) (Registration.tickets r).
Proof.
  intros req tier.
  assert (He : events (db_one_tier 10) !! eventId req
               = Some (Event.mk 9 [tier] [] (Analytics.mk 0 0 0)))
    by (vm_compute; reflexivity).
  split; [exact He|].
  destruct (proj1 (reserve_accepts_exactly req (db_one_tier 10) _ He) eq_refl)
    as (r & Hrun & _ & _ & _ & Hp & _ & _ & Hl).
  exists r. split; [exact Hrun|]. split; [exact Hp | exact Hl].
Defined.



(** X7.  The creation route writes the registration twice, once without
    and once with its QR code.  When the first write succeeds and the
    second fails, the reply is status 500 although the registration is
    stored: pending, active and without a QR code. *)
Theorem reserve_failed_qr_save_keeps_registration (f : Faults)
    (req : CreateRequest) (db : DB) (event : Event.t) :
  events db !! eventId req = Some event ->
  forallb (line_ok event) (tickets req)
  && forallb (fun l => 1 <=? LineRequest.quantity l) (tickets req) = true ->
  registration_create_fails f = false ->
  registration_save_fails f = true ->
  let rid := fresh (dom (registrations db)) in
  run (post_registrations f req) db
    = (mkDB (events db)
         (<[rid := new_registration req event]> (registrations db)),
       ServerError) /\
  registrations db !! rid = None /\
  Registration.qrCode (new_registration req event) = None /\
  Registration.paymentStatus (new_registration req event) = pending.
Proof.
  intros He Hok Hc Hs rid. apply andb_prop in Hok as [Hl Hq].
  apply first_bad_forallb in Hl.
  rewrite (creation_run f req db event He), Hl. cbv zeta.
  rewrite registration_valid_new, Hq, Hc, Hs. simpl.
  repeat split. apply not_elem_of_dom, is_fresh.
Qed.

Lemma reserve_failed_qr_save_keeps_registration_witness :
  let f := mkFaults false true false in
  let req := mkCreate alice 1 (general 3) in
  let result := run (post_registrations f req) (db_one_tier 10) in
  snd result = ServerError /\
  registrations (fst result) !! 0%N
    = Some (Registration.mk 1 7 [Ticket.mk "General" 50 3] 150 pending None
              None active None).
Proof.
  intros f req result. subst result.
  rewrite (proj1 (reserve_failed_qr_save_keeps_registration f req
                    (db_one_tier 10)
                    (Event.mk 9 [TicketType.mk "General" 50 10 0] []
                       (Analytics.mk 0 0 0))
                    ltac:(vm_compute; reflexivity) eq_refl eq_refl eq_refl)).
  split; [reflexivity | vm_compute; reflexivity].
Defined.

(** ** More on the tier list *)

Section TierListMore.
Implicit Types (n : string) (d sign : Z) (tts : list TicketType.t)
  (ts : list Ticket.t).


Lemma add_sold_offers n d tts :
  map tier_offer (add_sold n d tts) = map tier_offer tts.
Proof.
  induction tts as [|tier rest IH]; simpl; [reflexivity|].
  destruct (String.eqb (TicketType.name tier) n); simpl; [reflexivity|].
  f_equal. exact IH.
Qed.

Lemma update_sold_offers sign ts tts :
  map tier_offer (update_sold sign ts tts) = map tier_offer tts.
Proof.
  revert tts. induction ts as [|t ts IH]; intros tts; [reflexivity|].
  rewrite update_sold_cons, IH. apply add_sold_offers.
Qed.






(** A tier of another name is left alone. *)
Lemma add_sold_lookup_other n d tts j b :
  tts !! j = Some b -> String.eqb (TicketType.name b) n = false ->
  add_sold n d tts !! j = Some b.
Proof.
  revert j. induction tts as [|x rest IH]; intros j Hj Hb; [discriminate|].
  simpl. destruct (String.eqb (TicketType.name x) n) eqn:E.
  - destruct j as [|j]; simpl in *; [|exact Hj].
    injection Hj as ->. congruence.
  - destruct j as [|j]; simpl in *; [exact Hj | auto].
Qed.

(** A tier that follows a tier of its own name is left alone. *)
Lemma add_sold_lookup_shadowed n d tts i j a b :
  (i < j)%nat -> tts !! i = Some a -> tts !! j = Some b ->
  TicketType.name a = TicketType.name b ->
  add_sold n d tts !! j = Some b.
Proof.
  revert i j. induction tts as [|x rest IH]; intros i j Hij Hi Hj Hab;
    [discriminate|].
  destruct j as [|j]; [lia|]. simpl in Hj. simpl.
  destruct (String.eqb (TicketType.name x) n) eqn:E; simpl; [exact Hj|].
  destruct i as [|i]; simpl in Hi.
  - injection Hi as ->. apply add_sold_lookup_other; [exact Hj|]. congruence.
  - apply (IH i j); [lia | exact Hi | exact Hj | exact Hab].
Qed.

Lemma add_sold_lookup_name n d tts i a :
  tts !! i = Some a ->
  exists a', add_sold n d tts !! i = Some a' /\
             TicketType.name a' = TicketType.name a.
Proof.
  intros Hi.
  assert (H : (TicketType.name <$> add_sold n d tts) !! i
              = (TicketType.name <$> tts) !! i)
    by (f_equal; apply add_sold_names).
  rewrite !list_lookup_fmap, Hi in H. simpl in H.
  destruct (add_sold n d tts !! i) as [a'|]; [|discriminate].
  exists a'. split; [reflexivity|]. simpl in H. congruence.
Qed.


Lemma attendees_filter_gone (rid : N) (l : list N) :
  rid ∉ List.filter (fun a => negb (N.eqb a rid)) l.
Proof.
  induction l as [|a l IH]; simpl; [apply not_elem_of_nil|].
  destruct (N.eqb a rid) eqn:E; simpl; [exact IH|].
  apply not_elem_of_cons. split; [|exact IH].
  apply N.eqb_neq in E. congruence.
Qed.
End TierListMore.

(** X8.  A tier that comes after another tier of the same name never
    sells: the loops of the payment and of the cancel route find the
    earlier tier every time, so the later one keeps its [sold] count (and
    everything else) whatever registrations are paid or cancelled. *)
Theorem shadowed_tier_never_sells (sign : Z) (ts : list Ticket.t)
    (tts : list TicketType.t) (i j : nat) (a b : TicketType.t) :
  (i < j)%nat ->
  tts !! i = Some a ->
  tts !! j = Some b ->
  TicketType.name a = TicketType.name b ->
  update_sold sign ts tts !! j = Some b.
Proof.
  revert tts a. induction ts as [|t ts IH]; intros tts a Hij Hi Hj Hab;
    [exact Hj|].
  rewrite update_sold_cons.
  destruct (add_sold_lookup_name (Ticket.ticketType t)
              (sign * Ticket.quantity t) tts i a Hi) as (a' & Hi' & Ha').
  apply (IH _ a'); [exact Hij | exact Hi' | | congruence].
  exact (add_sold_lookup_shadowed _ _ tts i j a b Hij Hi Hj Hab).
Qed.

Lemma shadowed_tier_never_sells_witness :
  let tts := [TicketType.mk "General" 50 10 0; TicketType.mk "VIP" 90 5 0;
              TicketType.mk "General" 40 20 0] in
  let ts := [Ticket.mk "General" 50 4; Ticket.mk "VIP" 90 1;
             Ticket.mk "General" 50 20] in
  update_sold 1 ts tts !! 2%nat = Some (TicketType.mk "General" 40 20 0) /\
  update_sold 1 ts tts !! 0%nat = Some (TicketType.mk "General" 50 10 24).
Proof.
  intros tts ts. split; [|reflexivity].
  exact (shadowed_tier_never_sells 1 ts tts 0 2 (TicketType.mk "General" 50 10 0)
           (TicketType.mk "General" 40 20 0) ltac:(lia) eq_refl eq_refl eq_refl).
Defined.

(** ** How events evolve *)

Section EventWrites.
Variable f : Faults.

Lemma creation_events (req : CreateRequest) (db : DB) :
  events (fst (run (post_registrations f req) db)) = events db.
Proof.
  destruct (events db !! eventId req) as [event|] eqn:He.
  - rewrite (creation_run f req db event He).
    destruct (first_bad event (tickets req)); [reflexivity|]. cbv zeta.
    destruct (negb _); [reflexivity|].
    destruct (registration_create_fails f); [reflexivity|].
    destruct (registration_save_fails f); reflexivity.
  - rewrite (creation_run_no_event f req db He). reflexivity.
Qed.

Lemma payment_events (req : PaymentRequest) (db : DB) :
  events (fst (run (put_registration_payment f req) db)) = events db \/
  exists r e,
    registrations db !! payment_id req = Some r /\
    events db !! Registration.event r = Some e /\
    events (fst (run (put_registration_payment f req) db))
      = <[Registration.event r :=
            commit_event (payment_id req)
              (Registration.set_payment r completed (paymentIntentId req)
                 (transactionId req)) e]> (events db).
Proof.
  unfold run, put_registration_payment, bind, Registration_findById,
    registration_save, Event_findById, event_save, ret, respond.
  destruct (registrations db !! payment_id req) as [r|] eqn:Hr; simpl; [|auto].
  destruct (negb _); simpl; [auto|].
  destruct (registration_save_fails f); simpl; [auto|].
  destruct (events db !! Registration.event r) as [e|] eqn:He; simpl; [|auto].
  destruct (event_save_fails f); simpl; [auto|].
  right. exists r, e. auto.
Qed.

Lemma cancel_events (req : CancelRequest) (db : DB) :
  events (fst (run (put_registration_cancel f req) db)) = events db \/
  exists r e,
    registrations db !! cancel_id req = Some r /\
    events db !! Registration.event r = Some e /\
    events (fst (run (put_registration_cancel f req) db))
      = <[Registration.event r :=
            release_event (cancel_id req)
              (Registration.set_status r cancelled) e]> (events db).
Proof.
  unfold run, put_registration_cancel, bind, Registration_findById,
    registration_save, Event_findById, event_save, ret, respond.
  destruct (registrations db !! cancel_id req) as [r|] eqn:Hr; simpl; [|auto].
  destruct (negb _); simpl; [auto|].
  destruct (is_cancelled _); simpl; [auto|].
  destruct (registration_save_fails f); simpl; [auto|].
  destruct (events db !! Registration.event r) as [e|] eqn:He; simpl; [|auto].
  destruct (event_save_fails f); simpl; [auto|].
  right. exists r, e. auto.
Qed.

Lemma view_events (eid : N) (db : DB) :
  events (fst (run (get_event f eid) db)) = events db \/
  exists e,
    events db !! eid = Some e /\
    events (fst (run (get_event f eid) db))
      = <[eid := Event.mk (Event.organizer e) (Event.ticketTypes e)
                   (Event.attendees e)
                   (Analytics.mk (Analytics.views (Event.analytics e) + 1)
                      (Analytics.totalTicketsSold (Event.analytics e))
                      (Analytics.totalRevenue (Event.analytics e)))]>
          (events db).
Proof.
  unfold run, get_event, bind, Event_findById, event_save, ret, respond.
  destruct (events db !! eid) as [e|] eqn:He; simpl; [|auto].
  destruct (event_save_fails f); simpl; [auto|].
  right. exists e. auto.
Qed.

Lemma create_event_events (u : AuthUser) (body : EventBody) (db : DB) eid e :
  events db !! eid = Some e ->
  events (fst (post_event f u body db)) !! eid = Some e.
Proof.
  intros He. unfold post_event.
  destruct (negb (authorize _ _)); [exact He|].
  destruct (negb (_ && _)); [exact He|].
  destruct (event_save_fails f); [exact He|]. simpl.
  rewrite lookup_insert_ne; [exact He|].
  intros <-. apply (is_fresh (ids_in_use db)).
  apply elem_of_union_l, elem_of_dom. eauto.
Qed.

Lemma serve_offers (rq : Request) (db : DB) eid e :
  keeps_offers rq = true ->
  events db !! eid = Some e ->
  exists e', events (serve f rq db) !! eid = Some e' /\ same_offer e e'.
Proof.
  intros Hk He.
  assert (Hsame : exists e', events db !! eid = Some e' /\ same_offer e e')
    by (exists e; split; [exact He | split; reflexivity]).
  destruct rq as [[req|req|req|req]|eid'|u eid'|u body]; simpl;
    try discriminate Hk.
  - rewrite creation_events. exact Hsame.
  - destruct (payment_events req db) as [-> | (r & e0 & _ & He0 & ->)];
      [exact Hsame|].
    destruct (decide (Registration.event r = eid)) as [<- | Hne].
    + rewrite lookup_insert_eq. eexists. split; [reflexivity|].
      rewrite He0 in He. injection He as ->.
      split; [reflexivity | apply update_sold_offers].
    + rewrite lookup_insert_ne by exact Hne. exact Hsame.
  - destruct (cancel_events req db) as [-> | (r & e0 & _ & He0 & ->)];
      [exact Hsame|].
    destruct (decide (Registration.event r = eid)) as [<- | Hne].
    + rewrite lookup_insert_eq. eexists. split; [reflexivity|].
      rewrite He0 in He. injection He as ->.
      split; [reflexivity | apply update_sold_offers].
    + rewrite lookup_insert_ne by exact Hne. exact Hsame.
  - destruct (view_events eid' db) as [-> | (e0 & He0 & ->)]; [exact Hsame|].
    destruct (decide (eid' = eid)) as [<- | Hne].
    + rewrite lookup_insert_eq. eexists. split; [reflexivity|].
      rewrite He0 in He. injection He as ->. split; reflexivity.
    + rewrite lookup_insert_ne by exact Hne. exact Hsame.
  - exists e. split; [apply create_event_events, He | split; reflexivity].
Qed.
End EventWrites.

(** ** What changes the tiers of an event *)





(** X9.  Reservations, payments, cancellations, views and the creation of
    other events never remove an event and never change its organizer or
    what it offers: the tiers keep their order, names, prices and
    capacities.  Only an event edit or a delete can change them. *)
Theorem offers_change_only_by_edit_or_delete (rqs : list (Faults * Request))
    (db : DB) (eid : N) (e : Event.t) :
  Forall (fun frq => keeps_offers frq.2 = true) rqs ->
  events db !! eid = Some e ->
  exists e',
    events (serve_all rqs db) !! eid = Some e' /\
    Event.organizer e' = Event.organizer e /\
    map tier_offer (Event.ticketTypes e') = map tier_offer (Event.ticketTypes e).
Proof.
  intros Hk. revert db e.
  induction Hk as [|[f rq] rqs Hrq _ IH]; intros db e He.
  - exists e. auto.
  - destruct (serve_offers f rq db eid e Hrq He) as (e1 & He1 & Ho1 & Ht1).
    destruct (IH _ _ He1) as (e2 & He2 & Ho2 & Ht2).
    exists e2. split; [exact He2|]. split; congruence.
Qed.

Lemma offers_change_only_by_edit_or_delete_witness :
  let rqs := [(no_faults, Ledger (Reserve (mkCreate alice 1 (general 3))));
              (no_faults, Ledger (Commit (mkPayment alice 0 None None)));
              (no_faults, ViewEvent 1);
              (no_faults, Ledger (Release (mkCancel alice 0)))] in
  events (db_one_tier 10) !! 1%N
    = Some (Event.mk 9 [TicketType.mk "General" 50 10 0] [] (Analytics.mk 0 0 0)) /\
  exists e',
    events (serve_all rqs (db_one_tier 10)) !! 1%N = Some e' /\
    Event.organizer e' = 9%N /\
    map tier_offer (Event.ticketTypes e') = [("General"%string, 50, 10)].
Proof.
  intros rqs.
  assert (He : events (db_one_tier 10) !! 1%N
               = Some (Event.mk 9 [TicketType.mk "General" 50 10 0] []
                         (Analytics.mk 0 0 0))) by (vm_compute; reflexivity).
  split; [exact He|].
  exact (offers_change_only_by_edit_or_delete rqs (db_one_tier 10) 1 _
           ltac:(repeat constructor) He).
Defined.

(** ** How payments and cancellations compose *)







(** ** Viewing and deleting an event *)

Lemma view_run (f : Faults) (eid : N) (db : DB) (e : Event.t) :
  events db !! eid = Some e ->
  run (get_event f eid) db =
    let e' := Event.mk (Event.organizer e) (Event.ticketTypes e)
                (Event.attendees e)
                (Analytics.mk (Analytics.views (Event.analytics e) + 1)
                   (Analytics.totalTicketsSold (Event.analytics e))
                   (Analytics.totalRevenue (Event.analytics e))) in
    if event_save_fails f then (db, ServerError)
    else (mkDB (<[eid := e']> (events db)) (registrations db),
          OkEvent (Some e')).
Proof.
  intros He.
  unfold run, get_event, bind, Event_findById, event_save, ret, respond.
  rewrite He. simpl. destruct (event_save_fails f); reflexivity.
Qed.

(** The payment and the cancel route for a registration whose event is
    gone: the registration is saved, then reading the event fails. *)
Lemma payment_run_no_event (f : Faults) (req : PaymentRequest) (db : DB) r :
  registrations db !! payment_id req = Some r ->
  Registration.user r = id (payment_user req) ->
  events db !! Registration.event r = None ->
  run (put_registration_payment f req) db =
    if registration_save_fails f then (db, ServerError)
    else (mkDB (events db)
            (<[payment_id req :=
                 Registration.set_payment r completed (paymentIntentId req)
                   (transactionId req)]> (registrations db)),
          ServerError).
Proof.
  intros Hr Hu He.
  unfold run, put_registration_payment, bind, Registration_findById,
    registration_save, Event_findById, event_save, ret, respond.
  rewrite Hr, Hu, N.eqb_refl. simpl.
  destruct (registration_save_fails f); [reflexivity|]. simpl.
  rewrite He. reflexivity.
Qed.

Lemma cancel_run_no_event (f : Faults) (req : CancelRequest) (db : DB) r :
  registrations db !! cancel_id req = Some r ->
  Registration.user r = id (cancel_user req) ->
  is_cancelled (Registration.status r) = false ->
  events db !! Registration.event r = None ->
  run (put_registration_cancel f req) db =
    if registration_save_fails f then (db, ServerError)
    else (mkDB (events db)
            (<[cancel_id req := Registration.set_status r cancelled]>
               (registrations db)),
          ServerError).
Proof.
  intros Hr Hu Hs He.
  unfold run, put_registration_cancel, bind, Registration_findById,
    registration_save, Event_findById, event_save, ret, respond.
  rewrite Hr, Hu, N.eqb_refl, Hs. simpl.
  destruct (registration_save_fails f); [reflexivity|]. simpl.
  rewrite He. reflexivity.
Qed.

(** X13.  Viewing an event and paying for one of its registrations do not
    interfere: in either order the database ends up the same, with the
    view counted once and the sale counted once. *)
Theorem viewing_commutes_with_payment (db : DB) (u : AuthUser) (rid : N)
    (intent txn : option string) (r : Registration.t) (e : Event.t) :
  registrations db !! rid = Some r ->
  Registration.user r = id u ->
  events db !! Registration.event r = Some e ->
  let view := (no_faults, ViewEvent (Registration.event r)) in
  let pay := (no_faults, Ledger (Commit (mkPayment u rid intent txn))) in
  serve_all [view; pay] db = serve_all [pay; view] db /\
  exists e',
    events (serve_all [view; pay] db) !! Registration.event r = Some e' /\
    Analytics.views (Event.analytics e')
      = Analytics.views (Event.analytics e) + 1 /\
    Analytics.totalTicketsSold (Event.analytics e')
      = Analytics.totalTicketsSold (Event.analytics e)
        + totalTickets (Registration.tickets r) /\
    Event.ticketTypes e'
      = update_sold 1 (Registration.tickets r) (Event.ticketTypes e).
Proof.
  intros Hr Hu He view pay.
  pose (p := Registration.set_payment r completed intent txn).
  assert (Hvp : serve_all [view; pay] db =
            mkDB (<[Registration.event r :=
                      commit_event rid p
                        (Event.mk (Event.organizer e) (Event.ticketTypes e)
                           (Event.attendees e)
                           (Analytics.mk (Analytics.views (Event.analytics e) + 1)
                              (Analytics.totalTicketsSold (Event.analytics e))
                              (Analytics.totalRevenue (Event.analytics e))))]>
                    (events db))
                 (<[rid := p]> (registrations db))).
  { unfold serve_all, view, pay. simpl.
    rewrite (view_run no_faults _ db e He). simpl.
    match goal with
    | |- fst (run _ ?d) = _ =>
        rewrite (payment_run no_faults (mkPayment u rid intent txn) d r _ Hr Hu
                   (lookup_insert_eq _ _ _))
    end.
    simpl. rewrite insert_insert_eq. reflexivity. }
  assert (Hpv : serve_all [pay; view] db = serve_all [view; pay] db).
  { rewrite Hvp. unfold serve_all, view, pay.
    cbn [fold_left serve step fst snd].
    rewrite (payment_run no_faults (mkPayment u rid intent txn) db r e Hr Hu He).
    simpl.
    rewrite (view_run no_faults _ _ _ (lookup_insert_eq _ _ _)). simpl.
    rewrite insert_insert_eq. reflexivity. }
  split; [symmetry; exact Hpv|].
  rewrite Hvp. simpl. eexists. split; [apply lookup_insert_eq|].
  repeat split.
Qed.

Lemma viewing_commutes_with_payment_witness :
  let db := exec [Reserve (mkCreate alice 1 (general 3))] (db_one_tier 10) in
  let view := (no_faults, ViewEvent 1) in
  let pay := (no_faults, Ledger (Commit (mkPayment alice 0 None None))) in
  registrations db !! 0%N
    = Some (Registration.mk 1 7 [Ticket.mk "General" 50 3] 150 pending None
              None active (Some (mkQr 0 1 7))) /\
  serve_all [view; pay] db = serve_all [pay; view] db.
Proof.
  intros db view pay.
  assert (Hr : registrations db !! 0%N
               = Some (Registration.mk 1 7 [Ticket.mk "General" 50 3] 150
                         pending None None active (Some (mkQr 0 1 7))))
    by (vm_compute; reflexivity).
  split; [exact Hr|].
  exact (proj1 (viewing_commutes_with_payment db alice 0 None None _
                  (Event.mk 9 [TicketType.mk "General" 50 10 0] []
                     (Analytics.mk 0 0 0))
                  Hr eq_refl ltac:(vm_compute; reflexivity))).
Defined.

(** X14.  Deleting an event leaves its registrations in place, and they
    can no longer be handled properly: a new reservation for the event is
    refused with [EventNotFound]; a payment or a cancellation by the buyer
    is answered with status 500 although the registration has been saved
    as completed, respectively cancelled; and the buyer can no longer read
    the registration. *)
Theorem registrations_of_a_deleted_event (db : DB) (o u : AuthUser)
    (users : gset N) (rid : N) (intent txn : option string)
    (ls : list LineRequest.t) (r : Registration.t) (e : Event.t) :
  events db !! Registration.event r = Some e ->
  not_owner o e = false ->
  registrations db !! rid = Some r ->
  Registration.user r = id u ->
  let deleted := delete_event no_faults o (Registration.event r) db in
  let db1 := fst deleted in
  snd deleted = Json tt /\
  registrations db1 = registrations db /\
  events db1 = delete (Registration.event r) (events db) /\
  run (post_registrations no_faults (mkCreate u (Registration.event r) ls)) db1
    = (db1, EventNotFound) /\
  run (put_registration_payment no_faults (mkPayment u rid intent txn)) db1
    = (mkDB (events db1)
         (<[rid := Registration.set_payment r completed intent txn]>
            (registrations db)),
       ServerError) /\
  (Registration.status r <> cancelled ->
   run (put_registration_cancel no_faults (mkCancel u rid)) db1
     = (mkDB (events db1)
          (<[rid := Registration.set_status r cancelled]> (registrations db)),
        ServerError)) /\
  get_registration users u rid db1 = Status500.
Proof.
  intros He Ho Hr Hu deleted db1.
  assert (Hd : deleted = (mkDB (delete (Registration.event r) (events db))
                            (registrations db), Json tt)).
  { unfold deleted, delete_event. rewrite He, Ho. reflexivity. }
  subst db1. rewrite Hd. simpl.
  assert (Hgone : delete (Registration.event r) (events db)
                    !! Registration.event r = None) by apply lookup_delete_eq.
  split; [reflexivity|]. split; [reflexivity|]. split; [reflexivity|].
  split; [apply creation_run_no_event; exact Hgone|].
  split; [|split].
  - rewrite (payment_run_no_event no_faults (mkPayment u rid intent txn) _ r);
      [reflexivity | exact Hr | exact Hu | exact Hgone].
  - intros Hs.
    rewrite (cancel_run_no_event no_faults (mkCancel u rid) _ r);
      [reflexivity | exact Hr | exact Hu | | exact Hgone].
    destruct (Registration.status r);
      [reflexivity | contradiction | reflexivity].
  - unfold get_registration. simpl. rewrite Hr, Hgone. reflexivity.
Qed.

Lemma registrations_of_a_deleted_event_witness :
  let db := exec [Reserve (mkCreate alice 1 (general 3))] (db_one_tier 10) in
  let db1 := fst (delete_event no_faults olga 1 db) in
  let paid := run (put_registration_payment no_faults
                     (mkPayment alice 0 None None)) db1 in
  events db1 !! 1%N = None /\
  snd paid = ServerError /\
  (Registration.paymentStatus <$> registrations (fst paid) !! 0%N)
    = Some completed.
Proof.
  intros db db1 paid.
  pose (r := Registration.mk 1 7 [Ticket.mk "General" 50 3] 150 pending None
               None active (Some (mkQr 0 1 7))).
  destruct (registrations_of_a_deleted_event db olga alice ∅ 0 None None []
              r (Event.mk 9 [TicketType.mk "General" 50 10 0] []
                   (Analytics.mk 0 0 0))
              ltac:(vm_compute; reflexivity) eq_refl
              ltac:(vm_compute; reflexivity) eq_refl)
    as (_ & _ & Hev & _ & Hpay & _).
  subst paid db1.
  change (delete_event no_faults olga 1 db)
    with (delete_event no_faults olga (Registration.event r) db).
  rewrite Hpay, Hev. simpl.
  split; [apply lookup_delete_eq|]. split; [reflexivity|].
  rewrite lookup_insert_eq. reflexivity.
Defined.

(** ** Creating an event *)





(** X16.  For a caller with the role organizer or admin, the creation of
    an event validates the name, the price and the capacity of every tier
    but not its [sold] count: a tier without a name, with a negative price
    or with a negative capacity gives status 500 and stores nothing, while
    any [sold] count the body names, above the capacity or below zero, is
    stored as given once the tiers are valid. *)
Theorem created_event_does_not_validate_sold (f : Faults)
    (u : AuthUser) (body : EventBody) (db : DB) :
  authorize ["organizer"; "admin"]%string u = true ->
  (forall tb,
     In tb (body_tiers body) ->
     TierBody.name tb = ""%string \/ TierBody.price tb < 0 \/
     TierBody.quantity tb < 0 ->
     post_event f u body db = (db, Status500)) /\
  (ticketTypes_valid (map tier_of_body (body_tiers body)) = true ->
   other_fields_valid body = true ->
   event_save_fails f = false ->
   forall tb s,
     In tb (body_tiers body) ->
     TierBody.sold tb = Some s ->
     exists eid e tier,
       post_event f u body db
         = (mkDB (<[eid := e]> (events db)) (registrations db), Json (eid, e)) /\
       In tier (Event.ticketTypes e) /\
       tier_offer tier
         = (TierBody.name tb, TierBody.price tb, TierBody.quantity tb) /\
       TicketType.sold tier = s).
Proof.
  intros Ha. unfold post_event. rewrite Ha. simpl. split.
  - intros tb Hin Hbad.
    assert (Hv : ticketTypes_valid (map tier_of_body (body_tiers body)) = false).
    { unfold ticketTypes_valid.
      destruct (forallb _ _) eqn:E; [|reflexivity].
      rewrite forallb_forall in E.
      specialize (E (tier_of_body tb) (in_map _ _ _ Hin)).
      apply andb_prop in E as [E Hq]. apply andb_prop in E as [Hn Hp].
      simpl in Hn, Hp, Hq. apply Z.leb_le in Hp, Hq.
      destruct Hbad as [Hbad | [Hbad | Hbad]]; [|lia|lia].
      rewrite Hbad in Hn. discriminate. }
    rewrite Hv. reflexivity.
  - intros Hv Ho Hf tb s Hin Hs. rewrite Hv, Ho, Hf. simpl.
    do 2 eexists. exists (tier_of_body tb).
    split; [reflexivity|]. split; [apply in_map, Hin|].
    unfold tier_offer, tier_of_body. simpl. rewrite Hs. auto.
Qed.

Lemma created_event_does_not_validate_sold_witness :
  let unnamed := mkEventBody None [TierBody.mk "" 50 10 None] None
                   None None None true in
  let oversold := mkEventBody None [TierBody.mk "General" 50 10 (Some 99)]
                    None None None None true in
  post_event no_faults olga unnamed (mkDB ∅ ∅) = (mkDB ∅ ∅, Status500) /\
  exists eid e tier,
    post_event no_faults olga oversold (mkDB ∅ ∅)
      = (mkDB (<[eid := e]> ∅) ∅, Json (eid, e)) /\
    In tier (Event.ticketTypes e) /\
    tier_offer tier = ("General"%string, 50, 10) /\
    TicketType.sold tier = 99.
Proof.
  intros unnamed oversold. split.
  - apply (proj1 (created_event_does_not_validate_sold no_faults
                    olga unnamed (mkDB ∅ ∅) eq_refl)
             (TierBody.mk "" 50 10 None)).
    + simpl. auto.
    + left. reflexivity.
  - apply (proj2 (created_event_does_not_validate_sold no_faults
                    olga oversold (mkDB ∅ ∅) eq_refl) eq_refl eq_refl eq_refl
             (TierBody.mk "General" 50 10 (Some 99)) 99).
    + simpl. auto.
    + reflexivity.
Defined.

(** ** The reading routes after payments and cancellations *)

Lemma populate_insert_length (regs : gmap N Registration.t) (rid : N)
    (r r' : Registration.t) (l : list N) :
  regs !! rid = Some r ->
  length (omap (fun a => <[rid := r']> regs !! a) l)
  = length (omap (fun a => regs !! a) l).
Proof.
  intros Hr. induction l as [|a l IH]; [reflexivity|]. simpl.
  destruct (decide (rid = a)) as [<- | Hne].
  - rewrite lookup_insert_eq, Hr. simpl. f_equal. exact IH.
  - rewrite lookup_insert_ne by exact Hne.
    destruct (regs !! a); simpl; [f_equal|]; exact IH.
Qed.

Lemma breakdown_capacity (sign : Z) (ts : list Ticket.t)
    (tts : list TicketType.t) :
  map (fun row => (Breakdown.name row,
                   Breakdown.sold row + Breakdown.remaining row))
      (map breakdown (update_sold sign ts tts))
  = map (fun row => (Breakdown.name row,
                     Breakdown.sold row + Breakdown.remaining row))
        (map breakdown tts).
Proof.
  rewrite !map_map.
  transitivity (map (fun o : string * Z * Z => (o.1.1, o.2))
                  (map tier_offer (update_sold sign ts tts))).
  - rewrite map_map. apply map_ext. intros tier. simpl. f_equal. lia.
  - rewrite update_sold_offers, map_map. apply map_ext.
    intros tier. simpl. f_equal. lia.
Qed.

(** X17.  After a payment the analytics report of the event, as its
    organizer or an admin gets it, counts one attendee more, shows
    [totalTicketsSold] raised by the tickets of the registration and
    [totalRevenue] raised by its amount, the same number of views, and the
    same tiers, each with sold plus remaining still equal to what it was
    (the capacity). *)
Theorem report_after_payment (db : DB) (o u : AuthUser) (rid : N)
    (intent txn : option string) (r : Registration.t) (e : Event.t) :
  registrations db !! rid = Some r ->
  Registration.user r = id u ->
  events db !! Registration.event r = Some e ->
  not_owner o e = false ->
  let db1 := fst (step no_faults (Commit (mkPayment u rid intent txn)) db) in
  exists rep rep',
    get_event_analytics o (Registration.event r) db = Json rep /\
    get_event_analytics o (Registration.event r) db1 = Json rep' /\
    Report.attendeeCount rep' = S (Report.attendeeCount rep) /\
    Report.totalTicketsSold rep'
      = Report.totalTicketsSold rep + totalTickets (Registration.tickets r) /\
    Report.totalRevenue rep'
      = Report.totalRevenue rep + Registration.totalAmount r /\
    Report.totalViews rep' = Report.totalViews rep /\
    map (fun row => (Breakdown.name row,
                     Breakdown.sold row + Breakdown.remaining row))
        (Report.ticketTypeBreakdown rep')
    = map (fun row => (Breakdown.name row,
                       Breakdown.sold row + Breakdown.remaining row))
          (Report.ticketTypeBreakdown rep).
Proof.
  intros Hr Hu He Ho db1. subst db1. unfold step.
  rewrite (payment_run no_faults (mkPayment u rid intent txn) db r e Hr Hu He).
  simpl. unfold get_event_analytics. simpl.
  rewrite He, lookup_insert_eq.
  assert (Ho' : not_owner o
                  (commit_event rid
                     (Registration.set_payment r completed intent txn) e)
                = false) by exact Ho.
  rewrite Ho, Ho'. do 2 eexists.
  split; [reflexivity|]. split; [reflexivity|]. simpl.
  split; [|split; [reflexivity|split; [reflexivity|split; [reflexivity|]]]].
  - unfold populate_attendees. simpl.
    rewrite omap_app, length_app. simpl. rewrite lookup_insert_eq. simpl.
    rewrite (populate_insert_length _ _ r _ _ Hr). lia.
  - apply breakdown_capacity.
Qed.

Lemma report_after_payment_witness :
  let db := exec [Reserve (mkCreate alice 1 (general 3))] (db_one_tier 10) in
  let db1 := fst (step no_faults (Commit (mkPayment alice 0 None None)) db) in
  get_event_analytics olga 1 db
    = Json (Report.mk 0 0 0 0 [Breakdown.mk "General" 0 10 0]) /\
  exists rep',
    get_event_analytics olga 1 db1 = Json rep' /\
    Report.attendeeCount rep' = 1%nat /\
    Report.totalTicketsSold rep' = 3 /\
    Report.totalRevenue rep' = 150.
Proof.
  intros db db1.
  destruct (report_after_payment db olga alice 0 None None
              (Registration.mk 1 7 [Ticket.mk "General" 50 3] 150 pending None
                 None active (Some (mkQr 0 1 7)))
              (Event.mk 9 [TicketType.mk "General" 50 10 0] []
                 (Analytics.mk 0 0 0))
              ltac:(vm_compute; reflexivity) eq_refl
              ltac:(vm_compute; reflexivity) eq_refl)
    as (rep & rep' & Hrep & Hrep' & Hc & Ht & Hrev & _).
  assert (Hrep0 : get_event_analytics olga 1 db
                  = Json (Report.mk 0 0 0 0 [Breakdown.mk "General" 0 10 0]))
    by (vm_compute; reflexivity).
  split; [exact Hrep0|].
  simpl in Hrep. rewrite Hrep0 in Hrep. injection Hrep as <-.
  exists rep'. split; [exact Hrep'|]. auto.
Defined.

(** X18.  The list of an event's registrations that its organizer gets
    follows [paymentStatus] alone: a pending registration is not on it, a
    paid one is, and a registration that was paid and then cancelled stays
    on it, as cancelled, although the cancellation has taken it off the
    attendee list of the event. *)
Theorem paid_registration_stays_listed (db : DB) (o u : AuthUser) (rid : N)
    (intent txn : option string) (r : Registration.t) (e : Event.t) :
  registrations db !! rid = Some r ->
  Registration.paymentStatus r = pending ->
  Registration.status r = active ->
  Registration.user r = id u ->
  events db !! Registration.event r = Some e ->
  not_owner o e = false ->
  let eid := Registration.event r in
  let pay := Commit (mkPayment u rid intent txn) in
  let db1 := exec [pay] db in
  let db2 := exec [pay; Release (mkCancel u rid)] db in
  (exists l0, get_event_registrations o eid db = Json l0 /\ l0 !! rid = None) /\
  (exists l1 r1,
     get_event_registrations o eid db1 = Json l1 /\ l1 !! rid = Some r1 /\
     Registration.paymentStatus r1 = completed /\
     Registration.status r1 = active) /\
  (exists l2 r2 e2,
     get_event_registrations o eid db2 = Json l2 /\ l2 !! rid = Some r2 /\
     Registration.status r2 = cancelled /\
     events db2 !! eid = Some e2 /\ rid ∉ Event.attendees e2).
Proof.
  intros Hr Hp Hs Hu He Ho eid pay db1 db2. subst eid.
  pose (r1 := Registration.set_payment r completed intent txn).
  pose (r2 := Registration.set_status r1 cancelled).
  assert (H1 : db1 =
            mkDB (<[(Registration.event r) := commit_event rid r1 e]> (events db))
                 (<[rid := r1]> (registrations db))).
  { unfold db1, exec, pay. simpl.
    rewrite (payment_run no_faults (mkPayment u rid intent txn) db r e Hr Hu He).
    reflexivity. }
  assert (H2 : db2 =
            mkDB (<[(Registration.event r) := release_event rid r2 (commit_event rid r1 e)]>
                    (events db))
                 (<[rid := r2]> (registrations db))).
  { unfold db2, exec, pay. cbn [fold_left step fst].
    rewrite (payment_run no_faults (mkPayment u rid intent txn) db r e Hr Hu He).
    simpl.
    rewrite (cancel_run no_faults (mkCancel u rid) _ r1 (commit_event rid r1 e));
      simpl; [| apply lookup_insert_eq | exact Hu | rewrite Hs; reflexivity
              | apply lookup_insert_eq].
    rewrite !insert_insert_eq. reflexivity. }
  unfold get_event_registrations. rewrite H1, H2. simpl.
  rewrite He, !lookup_insert_eq.
  change (not_owner o (commit_event rid r1 e)) with (not_owner o e).
  change (not_owner o (release_event rid r2 (commit_event rid r1 e)))
    with (not_owner o e).
  rewrite Ho. split; [|split].
  - eexists. split; [reflexivity|].
    apply map_lookup_filter_None. right. intros r' Hr'. simpl.
    rewrite Hr in Hr'. injection Hr' as <-.
    unfold listed, is_completed. rewrite Hp, andb_false_r. discriminate.
  - exists (filter (fun kr => listed (Registration.event r) kr.2 = true)
              (<[rid := r1]> (registrations db))), r1.
    split; [reflexivity|]. split; [|split; [reflexivity | exact Hs]].
    apply map_lookup_filter_Some. split; [apply lookup_insert_eq|].
    simpl. unfold listed. simpl. rewrite N.eqb_refl. reflexivity.
  - exists (filter (fun kr => listed (Registration.event r) kr.2 = true)
              (<[rid := r2]> (registrations db))), r2,
      (release_event rid r2 (commit_event rid r1 e)).
    split; [reflexivity|]. split; [|split; [reflexivity|split]].
    + apply map_lookup_filter_Some. split; [apply lookup_insert_eq|].
      simpl. unfold listed. simpl. rewrite N.eqb_refl. reflexivity.
    + reflexivity.
    + apply attendees_filter_gone.
Qed.

Lemma paid_registration_stays_listed_witness :
  let db := exec [Reserve (mkCreate alice 1 (general 3))] (db_one_tier 10) in
  let db2 := exec [Commit (mkPayment alice 0 None None);
                   Release (mkCancel alice 0)] db in
  (exists l0, get_event_registrations olga 1 db = Json l0 /\ l0 !! 0%N = None) /\
  exists l2 r2 e2,
    get_event_registrations olga 1 db2 = Json l2 /\ l2 !! 0%N = Some r2 /\
    Registration.status r2 = cancelled /\
    events db2 !! 1%N = Some e2 /\ 0%N ∉ Event.attendees e2.
Proof.
  intros db db2.
  destruct (paid_registration_stays_listed db olga alice 0 None None
              (Registration.mk 1 7 [Ticket.mk "General" 50 3] 150 pending None
                 None active (Some (mkQr 0 1 7)))
              (Event.mk 9 [TicketType.mk "General" 50 10 0] []
                 (Analytics.mk 0 0 0))
              ltac:(vm_compute; reflexivity) eq_refl eq_refl eq_refl
              ltac:(vm_compute; reflexivity) eq_refl)
    as (H0 & _ & H2).
  split; [exact H0 | exact H2].
Defined.

(** ** The admin dashboard *)

Lemma map_fold_update (g : N -> Registration.t -> Z -> Z)
    (c : Registration.t -> Z) (m : gmap N Registration.t) (i : N)
    (r r' : Registration.t) :
  (forall k x acc, g k x acc = c x + acc) ->
  m !! i = Some r ->
  map_fold g 0 (<[i := r']> m) = c r' - c r + map_fold g 0 m.
Proof.
  intros Hg Hi.
  assert (Hcomm : forall (m' : gmap N Registration.t) j1 j2 z1 z2 y,
            j1 <> j2 -> m' !! j1 = Some z1 -> m' !! j2 = Some z2 ->
            g j1 z1 (g j2 z2 y) = g j2 z2 (g j1 z1 y)).
  { intros. rewrite !Hg. lia. }
  rewrite <- insert_delete_eq.
  rewrite map_fold_insert_L; [|apply Hcomm | apply lookup_delete_eq].
  rewrite (map_fold_delete_L g 0 i r m (Hcomm m) Hi), !Hg. lia.
Qed.

Lemma revenue_update (db : DB) (i : N) (r r' : Registration.t) :
  registrations db !! i = Some r ->
  dashboard_totalRevenue (mkDB (events db) (<[i := r']> (registrations db)))
  = (if is_completed r' then Registration.totalAmount r' else 0)
    - (if is_completed r then Registration.totalAmount r else 0)
    + dashboard_totalRevenue db.
Proof.
  intros Hr. unfold dashboard_totalRevenue. simpl.
  apply (map_fold_update _
           (fun x => if is_completed x then Registration.totalAmount x else 0));
    [|exact Hr].
  intros k x acc. destruct (is_completed x); lia.
Qed.

Lemma count_update (db : DB) (i : N) (r r' : Registration.t) :
  registrations db !! i = Some r ->
  dashboard_totalRegistrations
    (mkDB (events db) (<[i := r']> (registrations db)))
  = (if is_completed r' then 1 else 0) - (if is_completed r then 1 else 0)
    + dashboard_totalRegistrations db.
Proof.
  intros Hr. unfold dashboard_totalRegistrations. simpl.
  apply (map_fold_update _ (fun x => if is_completed x then 1 else 0));
    [|exact Hr].
  intros k x acc. destruct (is_completed x); lia.
Qed.

Lemma payment_registrations_saved (f : Faults) (req : PaymentRequest)
    (db : DB) r :
  registrations db !! payment_id req = Some r ->
  Registration.user r = id (payment_user req) ->
  registration_save_fails f = false ->
  registrations (fst (run (put_registration_payment f req) db))
    = <[payment_id req := Registration.set_payment r completed
                            (paymentIntentId req) (transactionId req)]>
        (registrations db).
Proof.
  intros Hr Hu Hf.
  unfold run, put_registration_payment, bind, Registration_findById,
    registration_save, Event_findById, event_save, ret, respond.
  rewrite Hr, Hu, N.eqb_refl, Hf. simpl.
  destruct (events db !! Registration.event r); simpl; [|reflexivity].
  destruct (event_save_fails f); reflexivity.
Qed.

(** X19.  The dashboard follows the registrations, not the events: as
    soon as the payment route has saved a registration as completed, the
    dashboard revenue is higher by its amount and the count of completed
    registrations by one, also when the event of the registration is gone
    or its save fails.  A further payment for a registration that is
    already completed changes neither figure. *)
Theorem dashboard_counts_a_payment_once (f : Faults) (db : DB)
    (u : AuthUser) (rid : N) (intent txn : option string)
    (r : Registration.t) :
  registrations db !! rid = Some r ->
  Registration.user r = id u ->
  registration_save_fails f = false ->
  let db1 := fst (run (put_registration_payment f
                         (mkPayment u rid intent txn)) db) in
  (Registration.paymentStatus r <> completed ->
   dashboard_totalRevenue db1
     = dashboard_totalRevenue db + Registration.totalAmount r /\
   dashboard_totalRegistrations db1 = dashboard_totalRegistrations db + 1) /\
  (Registration.paymentStatus r = completed ->
   dashboard_totalRevenue db1 = dashboard_totalRevenue db /\
   dashboard_totalRegistrations db1 = dashboard_totalRegistrations db).
Proof.
  intros Hr Hu Hf db1.
  pose proof (payment_registrations_saved f (mkPayment u rid intent txn) db r
                Hr Hu Hf) as Hsaved. fold db1 in Hsaved. simpl in Hsaved.
  assert (Hrev : dashboard_totalRevenue db1
                 = dashboard_totalRevenue
                     (mkDB (events db)
                        (<[rid := Registration.set_payment r completed intent txn]>
                           (registrations db))))
    by (unfold dashboard_totalRevenue; rewrite Hsaved; reflexivity).
  assert (Hcnt : dashboard_totalRegistrations db1
                 = dashboard_totalRegistrations
                     (mkDB (events db)
                        (<[rid := Registration.set_payment r completed intent txn]>
                           (registrations db))))
    by (unfold dashboard_totalRegistrations; rewrite Hsaved; reflexivity).
  rewrite Hrev, Hcnt, (revenue_update db rid r _ Hr), (count_update db rid r _ Hr).
  unfold is_completed. simpl.
  split; intros Hp.
  - destruct (Registration.paymentStatus r); try contradiction; lia.
  - rewrite Hp. lia.
Qed.

Lemma dashboard_counts_a_payment_once_witness :
  let db := exec [Reserve (mkCreate alice 1 (general 3))] (db_one_tier 10) in
  let f := mkFaults false false true in
  let db1 := fst (run (put_registration_payment f
                         (mkPayment alice 0 None None)) db) in
  events db1 = events db /\
  dashboard_totalRevenue db1 = dashboard_totalRevenue db + 150 /\
  dashboard_totalRegistrations db1 = dashboard_totalRegistrations db + 1.
Proof.
  intros db f db1. split; [vm_compute; reflexivity|].
  apply (proj1 (dashboard_counts_a_payment_once f db alice 0 None None
                  (Registration.mk 1 7 [Ticket.mk "General" 50 3] 150 pending
                     None None active (Some (mkQr 0 1 7)))
                  ltac:(vm_compute; reflexivity) eq_refl eq_refl)).
  discriminate.
Defined.

(** X20.  No cancellation changes the dashboard: the cancel route leaves
    [paymentStatus] and [totalAmount] alone, so a registration that was
    paid and then cancelled keeps counting towards the dashboard revenue
    and the number of completed registrations. *)
Theorem dashboard_ignores_cancellation (f : Faults) (req : CancelRequest)
    (db : DB) :
  let db1 := fst (run (put_registration_cancel f req) db) in
  dashboard_totalRevenue db1 = dashboard_totalRevenue db /\
  dashboard_totalRegistrations db1 = dashboard_totalRegistrations db.
Proof.
  intros db1.
  destruct (cancel_registrations f req db) as [E | (r & Hr & E)];
    fold db1 in E.
  - unfold dashboard_totalRevenue, dashboard_totalRegistrations.
    rewrite E. split; reflexivity.
  - assert (Hrev : dashboard_totalRevenue db1
                   = dashboard_totalRevenue
                       (mkDB (events db)
                          (<[cancel_id req := Registration.set_status r cancelled]>
                             (registrations db))))
      by (unfold dashboard_totalRevenue; rewrite E; reflexivity).
    assert (Hcnt : dashboard_totalRegistrations db1
                   = dashboard_totalRegistrations
                       (mkDB (events db)
                          (<[cancel_id req := Registration.set_status r cancelled]>
                             (registrations db))))
      by (unfold dashboard_totalRegistrations; rewrite E; reflexivity).
    rewrite Hrev, Hcnt, (revenue_update db _ r _ Hr), (count_update db _ r _ Hr).
    unfold is_completed. simpl. split; lia.
Qed.

(** ** Approval of events *)

(** X21.  The approval route can approve but not reject.  A rejection sets
    [status] to 'pending', which is not in the enum of the schema, so the
    save fails: for every event the reply is status 500 (or 404) and
    nothing is written.  An approval of an existing event marks it approved
    and published, whatever its status was. *)
Theorem approval_route_cannot_reject (save_fails : bool) (eid : N)
    (ms : gmap N Moderation.t) :
  (fst (put_admin_event_approve save_fails eid false ms) = ms /\
   forall m, snd (put_admin_event_approve save_fails eid false ms) <> Json m) /\
  (forall m,
     ms !! eid = Some m ->
     put_admin_event_approve false eid true ms
       = (<[eid := Moderation.mk true "published"]> ms,
          Json (Moderation.mk true "published"))).
Proof.
  unfold put_admin_event_approve. split.
  - destruct (ms !! eid); simpl; split; (reflexivity || discriminate).
  - intros m ->. reflexivity.
Qed.

Lemma approval_route_cannot_reject_witness :
  let ms : gmap N Moderation.t := {[ 1%N := Moderation.mk false "cancelled" ]} in
  put_admin_event_approve false 1 false ms = (ms, Status500) /\
  put_admin_event_approve false 1 true ms
    = (<[1%N := Moderation.mk true "published"]> ms,
       Json (Moderation.mk true "published")).
Proof.
  intros ms. split; [reflexivity|].
  exact (proj2 (approval_route_cannot_reject false 1 ms)
           (Moderation.mk false "cancelled") ltac:(vm_compute; reflexivity)).
Defined.

(** ** Who may read a registration *)

(** X22.  A registration whose event and buyer still exist is shown to
    its buyer, to the organizer of its event and to any admin, and to
    nobody else: every other user gets status 403. *)
Theorem registration_readers (users : gset N) (u : AuthUser) (rid : N)
    (db : DB) (r : Registration.t) (e : Event.t) :
  registrations db !! rid = Some r ->
  events db !! Registration.event r = Some e ->
  Registration.user r ∈ users ->
  (Registration.user r = id u \/ Event.organizer e = id u \/
   role u = "admin"%string ->
   get_registration users u rid db = Json r) /\
  (Registration.user r <> id u -> Event.organizer e <> id u ->
   role u <> "admin"%string ->
   get_registration users u rid db = Status403).
Proof.
  intros Hr He Hin. unfold get_registration, not_owner.
  rewrite Hr, He, (bool_decide_eq_true_2 _ Hin). simpl. split.
  - intros [H | [H | H]].
    + rewrite H, N.eqb_refl. reflexivity.
    + rewrite H, N.eqb_refl, andb_false_r. reflexivity.
    + rewrite H. simpl. rewrite !andb_false_r. reflexivity.
  - intros H1 H2 H3.
    apply N.eqb_neq in H1, H2. apply String.eqb_neq in H3.
    rewrite H1, H2, H3. reflexivity.
Qed.

Lemma registration_readers_witness :
  let db := exec [Reserve (mkCreate alice 1 (general 3))] (db_one_tier 10) in
  let users : gset N := {[ 7%N; 8%N; 9%N ]} in
  let r := Registration.mk 1 7 [Ticket.mk "General" 50 3] 150 pending None
             None active (Some (mkQr 0 1 7)) in
  get_registration users alice 0 db = Json r /\
  get_registration users olga 0 db = Json r /\
  get_registration users bob 0 db = Status403.
Proof.
  intros db users r.
  pose (e := Event.mk 9 [TicketType.mk "General" 50 10 0] [] (Analytics.mk 0 0 0)).
  assert (Hr : registrations db !! 0%N = Some r) by (vm_compute; reflexivity).
  assert (He : events db !! Registration.event r = Some e)
    by (vm_compute; reflexivity).
  assert (Hin : Registration.user r ∈ users) by (simpl; set_solver).
  split; [|split].
  - apply (proj1 (registration_readers users alice 0 db r e Hr He Hin)).
    left. reflexivity.
  - apply (proj1 (registration_readers users olga 0 db r e Hr He Hin)).
    right. left. reflexivity.
  - apply (proj2 (registration_readers users bob 0 db r e Hr He Hin));
      discriminate.
Defined.
